(** * Tariff tracker dashboard: extraction, watchlist and notification flow

    A shallow embedding of [tarrif-tracker-dashboard.py].  The script is a
    Streamlit page: three scrapers ([scrape_usitc_tariffs],
    [scrape_wto_tariffs], [get_ustr_updates]), a mail alert
    ([send_email_alert]) and the module-level render flow that calls them
    and reads and writes the Firestore collection "watchlist".

    Python exceptions are modelled by an outcome type, the Streamlit page,
    the Firestore collection and the outgoing network calls by an explicit
    state threaded through a small state-and-exception monad.  The
    libraries the script calls (requests, BeautifulSoup, pandas, smtplib,
    Firestore) are the fields of a [World]: what they answer is an input of
    the model, how the script uses the answers is the model. *)

From Stdlib Require Import ZArith String List Permutation Sorted.
From stdpp Require Import base decidable option list strings gmap sorting pretty.

Open Scope string_scope.
Open Scope list_scope.
Open Scope Z_scope.

(** ** Python values and exceptions *)

(** An exception object: its class name and [str(e)].  Every exception the
    modelled libraries raise derives from [Exception], so [except Exception]
    catches it. *)
Record Exn := { exn_class : string; exn_msg : string }.

Inductive Outcome (A : Type) : Type :=
| Returned (a : A)
| Raised (e : Exn).
Arguments Returned {A} a.
Arguments Raised {A} e.

(** [s.endswith(suffix)] *)
Definition endswith (s suffix : string) : bool :=
  (String.length suffix <=? String.length s)%nat &&
  String.eqb
    (substring (String.length s - String.length suffix) (String.length suffix) s)
    suffix.

(** ** Data model *)

(** One dictionary appended by [scrape_usitc_tariffs]; the fields are the
    keys "HS Code", "Product", "Tariff Rate", "Unit", "Effective Date". *)
Record TariffRecord := {
  hsCode : string;
  product : string;
  tariffRate : string;
  unit : string;
  effectiveDate : string
}.

(** A pandas frame: column labels and rows of displayed cells. *)
Record DataFrame := { df_columns : list string; df_rows : list (list string) }.

(** [pd.DataFrame()] *)
Definition empty_frame : DataFrame := {| df_columns := []; df_rows := [] |}.

(** [df.empty]: some axis has length 0. *)
Definition df_empty (df : DataFrame) : bool :=
  (length (df_columns df) =? 0)%nat || (length (df_rows df) =? 0)%nat.

(** [df.head(n)] *)
Definition df_head (n : nat) (df : DataFrame) : DataFrame :=
  {| df_columns := df_columns df; df_rows := take n (df_rows df) |}.

Definition tariff_columns : list string :=
  ["HS Code"; "Product"; "Tariff Rate"; "Unit"; "Effective Date"].

Definition tariff_row (r : TariffRecord) : list string :=
  [hsCode r; product r; tariffRate r; unit r; effectiveDate r].

(** [pd.DataFrame(results)] for a list of dictionaries with the five keys. *)
Definition pd_DataFrame (results : list TariffRecord) : DataFrame :=
  match results with
  | [] => empty_frame
  | _ => {| df_columns := tariff_columns; df_rows := tariff_row <$> results |}
  end.

(** ** Firestore documents *)

(** A field value a client may write: a string, a time of its own, or the
    [firestore.SERVER_TIMESTAMP] sentinel. *)
Inductive Field :=
| FStr (s : string)
| FTime (t : Z)
| SERVER_TIMESTAMP.

(** A field value the server stores. *)
Inductive Stored :=
| SStr (s : string)
| STime (t : Z).

Record Document := { doc_id : string; doc_fields : gmap string Stored }.

(** One row of the watchlist table: [doc.to_dict().get(...)] of "query",
    "country" and "tariff_type" ([None] when the key is absent). *)
Record WatchRow := {
  row_query : option Stored;
  row_country : option Stored;
  row_tariff_type : option Stored
}.

(** ** Network calls and the page *)

(** [requests.get(url, timeout=...)]; [None] is requests' default: no
    timeout at all. *)
Record Request := { req_url : string; req_timeout : option Z }.

Record Response := {
  status_code : Z;
  reason : string;
  resp_url : string;
  text : string
}.

Record Message := {
  msg_from : string;
  msg_to : string;
  msg_subject : string;
  msg_body : string
}.

(** The calls that leave the process, in the order they are issued. *)
Inductive Call :=
| HttpGet (r : Request)
| ReadExcel (url : string) (sheet_name skiprows : nat)
| SmtpConnect (host : string) (port : Z) (timeout : option Z)
| SmtpStartTls
| SmtpLogin (user password : string)
| SmtpSend (m : Message)
| SmtpQuit
| StoreAdd (collection : string) (data : gmap string Field)
| StoreQuery (collection field : string).

(** The elements of the page.  The emoji that open some of the labels of
    the script are left out of the texts. *)
Inductive Widget :=
| Subheader (s : string)
| StError (s : string)
| StInfo (s : string)
| StSuccess (s : string)
| StMarkdown (s : string)
| StDataframe (df : DataFrame)
| StTable (rows : list WatchRow)
| StButton (label : string)
| StPlotlyChart.

Record State := {
  ui : list Widget;            (* what the page shows, top to bottom *)
  db : list Document;          (* the collection "watchlist", in insertion order *)
  net : list Call              (* the calls issued so far *)
}.

Definition init_state : State := {| ui := []; db := []; net := [] |}.

(** ** The state-and-exception monad *)

Definition M (A : Type) : Type := State → Outcome A * State.

#[global] Instance M_ret : MRet M := λ A a s, (Returned a, s).

#[global] Instance M_bind : MBind M := λ A B f m s,
  match m s with
  | (Returned a, s') => f a s'
  | (Raised e, s') => (Raised e, s')
  end.

Definition raise {A} (e : Exn) : M A := λ s, (Raised e, s).

Definition lift {A} (o : Outcome A) : M A := λ s, (o, s).

(** [try: body  except Exception as e: handler e] *)
Definition try_except {A} (body : M A) (handler : Exn → M A) : M A := λ s,
  match body s with
  | (Returned a, s') => (Returned a, s')
  | (Raised e, s') => handler e s'
  end.

(** [with ... : body], where [exit] is the [__exit__] of the context
    manager and returns nothing: it runs when the body returns and when the
    body raises; an exception of [exit] replaces the outcome of the body,
    otherwise that outcome stands. *)
Definition with_exit {A} (body : M A) (exit : M ()) : M A := λ s,
  match body s with
  | (o, s') =>
      match exit s' with
      | (Returned _, s'') => (o, s'')
      | (Raised e, s'') => (Raised e, s'')
      end
  end.

Definition show (w : Widget) : M () := λ s,
  (Returned (), {| ui := ui s ++ [w]; db := db s; net := net s |}).

Definition issue (c : Call) : M () := λ s,
  (Returned (), {| ui := ui s; db := db s; net := net s ++ [c] |}).

Definition get_db : M (list Document) := λ s, (Returned (db s), s).

Definition put_db (c : list Document) : M () := λ s,
  (Returned (), {| ui := ui s; db := c; net := net s |}).

(** A library call that returns nothing and may raise. *)
Definition fallible (o : option Exn) : M () :=
  match o with
  | Some e => raise e
  | None => mret ()
  end.

(** [l[i]] for a non-negative literal index. *)
Definition index {A} (l : list A) (i : nat) : M A :=
  match l !! i with
  | Some x => mret x
  | None => raise {| exn_class := "IndexError"; exn_msg := "list index out of range" |}
  end.

(** [for x in xs: acc = body(acc, x)] *)
Fixpoint for_each {A B} (xs : list A) (body : B → A → M B) (acc : B) : M B :=
  match xs with
  | [] => mret acc
  | x :: xs' => acc' ← body acc x; for_each xs' body acc'
  end.

(** ** The Firestore collection

    The server keeps the documents of the collection.  [add] creates a
    document under a new id and replaces every [SERVER_TIMESTAMP] sentinel
    by the server's clock; a query ordered by a field returns the documents
    that carry the field, sorted on its value, ties on the document id in
    the direction of the ordering. *)

Definition resolve (now : Z) (f : Field) : Stored :=
  match f with
  | FStr s => SStr s
  | FTime t => STime t
  | SERVER_TIMESTAMP => STime now
  end.

(** The document the server stores for [data] written at time [now]. *)
Definition new_document (now : Z) (id : string) (data : gmap string Field) : Document :=
  {| doc_id := id; doc_fields := resolve now <$> data |}.

Definition collection_add (now : Z) (id : string) (data : gmap string Field)
    (c : list Document) : Outcome (list Document) :=
  if bool_decide (id ∈ (doc_id <$> c))
  then Raised {| exn_class := "AlreadyExists"; exn_msg := "Document already exists: " +:+ id |}
  else Returned (c ++ [new_document now id data]).

(** The order of stored values: timestamps sort before strings. *)
Definition stored_le (a b : Stored) : Prop :=
  match a, b with
  | STime x, STime y => x ≤ y
  | STime _, SStr _ => True
  | SStr _, STime _ => False
  | SStr x, SStr y => String.le x y
  end.

#[global] Instance stored_le_dec a b : Decision (stored_le a b).
Proof. destruct a, b; simpl; apply _. Defined.

(** [kd1] may come before [kd2] in a descending listing. *)
Definition descending (kd1 kd2 : Stored * Document) : Prop :=
  stored_le kd2.1 kd1.1 ∧ (stored_le kd1.1 kd2.1 → String.le (doc_id kd2.2) (doc_id kd1.2)).

#[global] Instance descending_dec kd1 kd2 : Decision (descending kd1 kd2).
Proof. unfold descending. apply _. Defined.

Definition keyed (field : string) (d : Document) : option (Stored * Document) :=
  v ← doc_fields d !! field; Some (v, d).

(** [collection.order_by(field, direction=DESCENDING).stream()] *)
Definition order_by_desc (field : string) (c : list Document) : list Document :=
  snd <$> merge_sort descending (omap (keyed field) c).

(** ** The world outside the script *)

Record World := {
  (* bs4 *)
  Soup : Type;
  Tag : Type;
  BeautifulSoup : string → Outcome Soup;        (* BeautifulSoup(text, "html.parser") *)
  soup_select : Soup → string → list Tag;       (* soup.select(selector) *)
  tag_find_all : Tag → string → list Tag;       (* tag.find_all(name) *)
  tag_get_text : Tag → string;                  (* tag.get_text(strip=True) *)
  tag_get : Tag → string → option string;       (* tag.get(attribute) *)
  (* requests, pandas, re *)
  requests_get : Request → Outcome Response;
  read_excel : string → nat → nat → Outcome DataFrame;
  re_compile : string → bool → Outcome (string → bool);  (* pattern, ignore case *)
  (* st.secrets, smtplib *)
  secrets : gmap string string;
  smtp_connect : string → Z → option Exn;
  smtp_starttls : option Exn;
  smtp_login : string → string → option Exn;
  smtp_send_message : Message → option Exn;
  smtp_quit : Outcome (Z * string);             (* self.docmd("QUIT"): code, printed reply *)
  (* the Firestore server during this run *)
  server_now : Z;
  server_new_id : string;
  add_fault : option Exn;
  query_fault : option Exn
}.

(** What the user entered before this run of the script. *)
Record Inputs := {
  query : string;          (* st.text_input *)
  country : string;        (* st.selectbox, one of the five countries *)
  tariff_type : string;    (* st.selectbox, one of the four types *)
  add_clicked : bool       (* st.button("Add to Watchlist") *)
}.

Definition truthy (s : string) : bool := negb (String.eqb s "").

Definition nl : string := String (Ascii.ascii_of_nat 10) "".

Definition USITC_URL : string := "https://hts.usitc.gov/?query=".
Definition WTO_URL : string :=
  "https://www.wto.org/english/res_e/booksp_e/tariff_profiles21_e.xlsx".
Definition USTR_URL : string :=
  "https://ustr.gov/issue-areas/enforcement/section-301-investigations/tariff-actions".

(** The arguments of the two [requests.get] calls. *)
Definition USITC_REQUEST (hs_code : string) : Request :=
  {| req_url := USITC_URL +:+ hs_code; req_timeout := Some 10 |}.

Definition USTR_REQUEST : Request := {| req_url := USTR_URL; req_timeout := None |}.

(** The mock table of the page. *)
Definition data : DataFrame := {|
  df_columns := ["Product"; "HS Code"; "Country"; "Tariff Type"; "Rate (%)"; "Last Updated"];
  df_rows := [
    ["Green Tea"; "0902.10"; "United States"; "Applied"; "6.4"; "2025-04-01"];
    ["Black Tea"; "0902.30"; "United States"; "Applied"; "8.0"; "2025-04-01"];
    ["Tapioca Pearls"; "1903.00"; "United States"; "Applied"; "5.0"; "2025-04-01"]]
|}.

(** [row[name]] in frame [df]. *)
Definition cell (df : DataFrame) (name : string) (row : list string) : string :=
  default "" (i ← fst <$> list_find (λ c, c = name) (df_columns df); row !! i).

(** [df[mask]] *)
Definition df_filter (keep : list string → bool) (df : DataFrame) : DataFrame :=
  {| df_columns := df_columns df; df_rows := List.filter keep (df_rows df) |}.

(** The [HTTPError] of a response whose status is 4xx or 5xx. *)
Definition http_error (r : Response) : option Exn :=
  if bool_decide (400 ≤ status_code r < 500) then
    Some {| exn_class := "HTTPError";
            exn_msg := pretty (status_code r) +:+ " Client Error: " +:+ reason r
                       +:+ " for url: " +:+ resp_url r |}
  else if bool_decide (500 ≤ status_code r < 600) then
    Some {| exn_class := "HTTPError";
            exn_msg := pretty (status_code r) +:+ " Server Error: " +:+ reason r
                       +:+ " for url: " +:+ resp_url r |}
  else None.

(** The exception of [SMTP.__exit__], given the outcome of
    [self.docmd("QUIT")]: a reply other than 221 raises
    [SMTPResponseException(code, message)], a lost connection is passed
    over, any other exception goes on. *)
Definition quit_error (reply : Outcome (Z * string)) : option Exn :=
  match reply with
  | Returned (code, message) =>
      if bool_decide (code ≠ 221) then
        Some {| exn_class := "SMTPResponseException";
                exn_msg := "(" +:+ pretty code +:+ ", " +:+ message +:+ ")" |}
      else None
  | Raised e =>
      if String.eqb (exn_class e) "SMTPServerDisconnected" then None else Some e
  end.

Section Dashboard.
Context (w : World).

(** [requests.get] *)
Definition http_get (r : Request) : M Response :=
  issue (HttpGet r);; lift (requests_get w r).

(** [response.raise_for_status()] *)
Definition raise_for_status (r : Response) : M () := fallible (http_error r).

(** The body of the loop over the selected rows, lines 41 to 49. *)
Definition usitc_row (results : list TariffRecord) (row : Tag w) : M (list TariffRecord) :=
  let cells := tag_find_all w row "td" in
  if (5 <=? length cells)%nat then
    c0 ← index cells 0;
    c1 ← index cells 1;
    c2 ← index cells 2;
    c3 ← index cells 3;
    c4 ← index cells 4;
    mret (results ++ [{| hsCode := tag_get_text w c0;
                         product := tag_get_text w c1;
                         tariffRate := tag_get_text w c2;
                         unit := tag_get_text w c3;
                         effectiveDate := tag_get_text w c4 |}])
  else mret results.

(** [scrape_usitc_tariffs], lines 32 to 54. *)
Definition scrape_usitc_tariffs (hs_code : string) : M DataFrame :=
  try_except
    (response ← http_get (USITC_REQUEST hs_code);
     raise_for_status response;;
     soup ← lift (BeautifulSoup w (text response));
     results ← for_each (soup_select w soup "#search-results tbody tr") usitc_row [];
     mret (pd_DataFrame results))
    (λ e, show (StError ("Error fetching data from USITC: " +:+ exn_msg e));;
          mret empty_frame).

(** [scrape_wto_tariffs], lines 57 to 64. *)
Definition scrape_wto_tariffs : M DataFrame :=
  let url := WTO_URL in
  try_except
    (issue (ReadExcel url 1 6);;
     df ← lift (read_excel w url 1 6);
     mret (df_head 10 df))
    (λ e, show (StError ("Failed to load WTO data: " +:+ exn_msg e));;
          mret empty_frame).

(** The value kept by the comprehension for one anchor:
    [link.get("href")] when it is truthy and ends with ".pdf". *)
Definition pdf_href (link : Tag w) : option string :=
  match tag_get w link "href" with
  | Some href => if truthy href && endswith href ".pdf" then Some href else None
  | None => None
  end.

(** [get_ustr_updates], lines 67 to 76. *)
Definition get_ustr_updates : M (list string) :=
  try_except
    (response ← http_get USTR_REQUEST;
     soup ← lift (BeautifulSoup w (text response));
     let links := soup_select w soup ".view-content a" in
     let updates := omap pdf_href links in
     mret (take 5 updates))
    (λ e, show (StError ("Failed to load USTR updates: " +:+ exn_msg e));;
          mret []).

(** [st.secrets[key]] *)
Definition secret (key : string) : M string :=
  match secrets w !! key with
  | Some v => mret v
  | None => raise {| exn_class := "KeyError"; exn_msg := key |}
  end.

(** [SMTP.__exit__], which ends the [with] block of lines 87 to 90: the
    QUIT command, then [close()], which sends nothing. *)
Definition smtp_exit : M () :=
  issue SmtpQuit;; fallible (quit_error (smtp_quit w)).

(** [send_email_alert], lines 79 to 94.  [smtplib.SMTP(host, port)] is
    given no timeout; when it raises, the [with] block is not entered and
    there is no exit. *)
Definition send_email_alert (subject body : string) : M bool :=
  try_except
    (from ← secret "sendgrid_user";
     to ← secret "alert_recipient";
     let msg := {| msg_from := from; msg_to := to;
                   msg_subject := subject; msg_body := body |} in
     issue (SmtpConnect "smtp.sendgrid.net" 587 None);;
     fallible (smtp_connect w "smtp.sendgrid.net" 587);;
     with_exit
       (issue SmtpStartTls;;
        fallible (smtp_starttls w);;
        key ← secret "sendgrid_api_key";
        issue (SmtpLogin "apikey" key);;
        fallible (smtp_login w "apikey" key);;
        issue (SmtpSend msg);;
        fallible (smtp_send_message w msg))
       smtp_exit;;
     mret true)
    (λ e, show (StError ("Failed to send email: " +:+ exn_msg e));;
          mret false).

(** [db.collection("watchlist").add(data)] *)
Definition watchlist_add (entry : gmap string Field) : M () :=
  issue (StoreAdd "watchlist" entry);;
  fallible (add_fault w);;
  c ← get_db;
  c' ← lift (collection_add (server_now w) (server_new_id w) entry c);
  put_db c'.

(** [db.collection("watchlist").order_by("timestamp", direction=DESCENDING).stream()] *)
Definition watchlist_stream : M (list Document) :=
  issue (StoreQuery "watchlist" "timestamp");;
  fallible (query_fault w);;
  c ← get_db;
  mret (order_by_desc "timestamp" c).

Definition watchlist_entry (i : Inputs) : gmap string Field :=
  {[ "query" := FStr (query i);
     "country" := FStr (country i);
     "tariff_type" := FStr (tariff_type i);
     "timestamp" := SERVER_TIMESTAMP ]}.

Definition alert_body (i : Inputs) : string :=
  "You added the following to your watchlist:" +:+ nl +:+ nl +:+
  "Product/HS Code: " +:+ query i +:+ nl +:+
  "Country: " +:+ country i +:+ nl +:+
  "Tariff Type: " +:+ tariff_type i.

(** The "Add to Watchlist" button and what runs when it was clicked,
    lines 104 to 121. *)
Definition add_to_watchlist (i : Inputs) : M () :=
  show (StButton "Add to Watchlist");;
  if add_clicked i then
    try_except
      (watchlist_add (watchlist_entry i);;
       show (StSuccess "Added to watchlist.");;
       send_email_alert "New Tariff Watchlist Item Added" (alert_body i);;
       mret ())
      (λ e, show (StError ("Failed to add to watchlist: " +:+ exn_msg e)))
  else mret ().

(** "Fetch USITC Data", lines 97 to 123. *)
Definition usitc_section (i : Inputs) : M () :=
  if truthy (query i) && String.eqb (country i) "United States" then
    show (Subheader "Live USITC Results");;
    usitc_data ← scrape_usitc_tariffs (query i);
    if negb (df_empty usitc_data) then
      show (StDataframe usitc_data);;
      add_to_watchlist i
    else show (StInfo "No results found or invalid HS code.")
  else mret ().

(** "WTO Data Preview", lines 126 to 129. *)
Definition wto_section : M () :=
  show (Subheader "WTO Tariff Profiles (Preview)");;
  wto_data ← scrape_wto_tariffs;
  if negb (df_empty wto_data) then show (StDataframe wto_data) else mret ().

(** "USTR PDF Links", lines 132 to 135. *)
Definition ustr_section : M () :=
  show (Subheader "Recent USTR Section 301 Updates");;
  ustr_links ← get_ustr_updates;
  for_each ustr_links
    (λ _ link, show (StMarkdown ("- [View Update](" +:+ link +:+ ")"))) ().

(** "Filter Data", "Display Table", "Graph Trends Over Time", lines 148 to
    164.  [str.contains] compiles its pattern as a regular expression,
    which raises on a malformed one. *)
Definition mock_section (i : Inputs) : M () :=
  let filtered :=
    df_filter (λ row, String.eqb (cell data "Country" row) (country i) &&
                      String.eqb (cell data "Tariff Type" row) (tariff_type i)) data in
  filtered ←
    (if truthy (query i) then
       by_product ← lift (re_compile w (query i) true);
       by_code ← lift (re_compile w (query i) false);
       mret (df_filter (λ row, by_product (cell data "Product" row) ||
                               by_code (cell data "HS Code" row)) filtered)
     else mret filtered);
  show (Subheader "Tariff Results (Mock Data)");;
  show (StDataframe filtered);;
  show (Subheader "Tariff Trends Over Time");;
  show StPlotlyChart.

Definition watch_row (doc : Document) : WatchRow :=
  {| row_query := doc_fields doc !! "query";
     row_country := doc_fields doc !! "country";
     row_tariff_type := doc_fields doc !! "tariff_type" |}.

(** "Watchlist Display", lines 167 to 177. *)
Definition watchlist_section : M () :=
  show (Subheader "My Watchlist");;
  try_except
    (docs ← watchlist_stream;
     let watchlist_items := watch_row <$> docs in
     match watchlist_items with
     | [] => show (StInfo "No items in your watchlist yet.")
     | _ => show (StTable watchlist_items)
     end)
    (λ e, show (StError ("Error fetching watchlist: " +:+ exn_msg e))).

(** The three remote sources, in the order the script fetches them. *)
Definition sources (i : Inputs) : M () :=
  usitc_section i;; wto_section;; ustr_section.

(** One run of the script, from "Fetch USITC Data" to the end. *)
Definition dashboard (i : Inputs) : M () :=
  sources i;; mock_section i;; watchlist_section.

End Dashboard.

(** ** The extraction rules in the words of the specification

    [fetchTableRecords]: a row with at least [minColumns] cells gives one
    record, cell positions 0..4 mapped to the five fields; a shorter row
    gives nothing.  [fetchLinkList]: keep the [href] values ending in
    [suffixFilter], return at most [limit] of them, in document order. *)

Definition fetchTableRecords_row (minColumns : nat) (cells : list string) : list TariffRecord :=
  if (minColumns <=? length cells)%nat then
    [{| hsCode := nth 0 cells "";
        product := nth 1 cells "";
        tariffRate := nth 2 cells "";
        unit := nth 3 cells "";
        effectiveDate := nth 4 cells "" |}]
  else [].

Definition fetchLinkList (suffixFilter : string) (limit : nat) (hrefs : list string) : list string :=
  take limit (List.filter (λ href, endswith href suffixFilter) hrefs).

(** [createdAt] of a stored entry: the time in its field "timestamp". *)
Definition createdAt (d : Document) : option Z :=
  match doc_fields d !! "timestamp" with
  | Some (STime t) => Some t
  | _ => None
  end.

(** [d1] is at least as new as [d2]. *)
Definition newest_first (d1 d2 : Document) : Prop :=
  ∃ t1 t2, createdAt d1 = Some t1 ∧ createdAt d2 = Some t2 ∧ t2 ≤ t1.

(** The displayed texts of the cells of a row, and the [href] values of
    the anchors that have one. *)
Definition cell_texts (w : World) (row : Tag w) : list string :=
  tag_get_text w <$> tag_find_all w row "td".

Definition hrefs (w : World) (links : list (Tag w)) : list string :=
  omap (λ link, tag_get w link "href") links.

(** ** What the page shows for a source, from the outcome of its fetch *)

(** The exception that ends the USITC fetch, if there is one. *)
Definition usitc_fetch_error (w : World) (hs_code : string) : option Exn :=
  match requests_get w (USITC_REQUEST hs_code) with
  | Raised e => Some e
  | Returned response =>
      match http_error response with
      | Some e => Some e
      | None =>
          match BeautifulSoup w (text response) with
          | Raised e => Some e
          | Returned _ => None
          end
      end
  end.

(** The exception that ends the body of the [with] block of the mail
    alert, if there is one. *)
Definition session_error (w : World) (msg : Message) : option Exn :=
  match smtp_starttls w with
  | Some e => Some e
  | None =>
  match secrets w !! "sendgrid_api_key" with
  | None => Some {| exn_class := "KeyError"; exn_msg := "sendgrid_api_key" |}
  | Some key =>
  match smtp_login w "apikey" key with
  | Some e => Some e
  | None => smtp_send_message w msg
  end end end.

(** The exception that ends the mail alert, if there is one: once the
    relay is connected, the exception of the exit comes before the one of
    the body. *)
Definition alert_error (w : World) (subject body : string) : option Exn :=
  let missing key := Some {| exn_class := "KeyError"; exn_msg := key |} in
  match secrets w !! "sendgrid_user" with
  | None => missing "sendgrid_user"
  | Some from =>
  match secrets w !! "alert_recipient" with
  | None => missing "alert_recipient"
  | Some to =>
  match smtp_connect w "smtp.sendgrid.net" 587 with
  | Some e => Some e
  | None =>
  match quit_error (smtp_quit w) with
  | Some e => Some e
  | None => session_error w {| msg_from := from; msg_to := to;
                               msg_subject := subject; msg_body := body |}
  end end end end.

Definition wto_panel (w : World) : list Widget :=
  Subheader "WTO Tariff Profiles (Preview)" ::
  match read_excel w WTO_URL 1 6 with
  | Raised e => [StError ("Failed to load WTO data: " +:+ exn_msg e)]
  | Returned df =>
      if df_empty (df_head 10 df) then [] else [StDataframe (df_head 10 df)]
  end.

Definition ustr_panel (w : World) : list Widget :=
  Subheader "Recent USTR Section 301 Updates" ::
  match requests_get w USTR_REQUEST with
  | Raised e => [StError ("Failed to load USTR updates: " +:+ exn_msg e)]
  | Returned response =>
      match BeautifulSoup w (text response) with
      | Raised e => [StError ("Failed to load USTR updates: " +:+ exn_msg e)]
      | Returned soup =>
          (λ link, StMarkdown ("- [View Update](" +:+ link +:+ ")")) <$>
          fetchLinkList ".pdf" 5 (hrefs w (soup_select w soup ".view-content a"))
      end
  end.

(** ** Properties of a computation

    [returns m]: no exception escapes [m], from any state.
    [issues P m]: [m] only adds calls to the trace, and each call it adds
    satisfies [P]. *)

Definition returns {A} (m : M A) : Prop :=
  ∀ s, ∃ a s', m s = (Returned a, s').

Definition issues {A} (P : Call → Prop) (m : M A) : Prop :=
  ∀ s, ∃ calls, net (m s).2 = net s ++ calls ∧ Forall P calls.

(** [keeps I m]: [m] leaves a store that satisfies [I] in a state that
    satisfies [I]. *)
Definition keeps {A} (I : list Document → Prop) (m : M A) : Prop :=
  ∀ s, I (db s) → I (db (m s).2).

(** Every stored entry has its [createdAt]. *)
Definition dated (c : list Document) : Prop :=
  Forall (λ d, is_Some (createdAt d)) c.

(** The calls the script makes, with the arguments it gives them. *)
Definition script_call (c : Call) : Prop :=
  match c with
  | HttpGet r => r = USTR_REQUEST ∨ ∃ hs_code, r = USITC_REQUEST hs_code
  | ReadExcel url sheet_name skiprows => url = WTO_URL ∧ sheet_name = 1%nat ∧ skiprows = 6%nat
  | SmtpConnect host port timeout =>
      host = "smtp.sendgrid.net" ∧ port = 587 ∧ timeout = None
  | SmtpStartTls => True
  | SmtpLogin user _ => user = "apikey"
  | SmtpSend _ => True
  | SmtpQuit => True
  | StoreAdd collection _ => collection = "watchlist"
  | StoreQuery collection field => collection = "watchlist" ∧ field = "timestamp"
  end.

(** The guards of the watchlist button in a run on inputs [i]. *)
Definition add_reached (w : World) (i : Inputs) : Prop :=
  truthy (query i) = true
  ∧ country i = "United States"
  ∧ add_clicked i = true
  ∧ ∃ usitc_data s0 s0',
      scrape_usitc_tariffs w (query i) s0 = (Returned usitc_data, s0')
      ∧ df_empty usitc_data = false.

(** A write to the store in a run on inputs [i] is the write of the
    watchlist button, reached behind the guards of the USITC panel. *)
Definition guarded_add (w : World) (i : Inputs) (c : Call) : Prop :=
  ∀ collection entry, c = StoreAdd collection entry →
    collection = "watchlist" ∧ entry = watchlist_entry i ∧ add_reached w i.

(** ** A concrete world for examples

    A page is given by the rows and the anchors the two selectors find; the
    answers of the network are fields of the fixture. *)
Module Fixture.

Inductive Node :=
| Td (s : string)
| Tr (cells : list string)
| Anchor (href : option string).

Record Page := { page_rows : list Node; page_anchors : list Node }.

Definition select (p : Page) (selector : string) : list Node :=
  if String.eqb selector "#search-results tbody tr" then page_rows p
  else if String.eqb selector ".view-content a" then page_anchors p
  else [].

Definition find_all (n : Node) (name : string) : list Node :=
  match n with
  | Tr cells => if String.eqb name "td" then Td <$> cells else []
  | _ => []
  end.

Definition get_text (n : Node) : string :=
  match n with
  | Td s => s
  | _ => ""
  end.

Definition get (n : Node) (attribute : string) : option string :=
  match n with
  | Anchor href => if String.eqb attribute "href" then href else None
  | _ => None
  end.

Definition ok (url : string) : Response :=
  {| status_code := 200; reason := "OK"; resp_url := url; text := "<html>" |}.

Definition server_error (url : string) : Response :=
  {| status_code := 500; reason := "Internal Server Error"; resp_url := url;
     text := "<html>" |}.

Definition timed_out : Exn :=
  {| exn_class := "ConnectTimeout"; exn_msg := "connection timed out" |}.

Definition refused : Exn :=
  {| exn_class := "SMTPConnectError"; exn_msg := "connection refused" |}.

Definition sheet : DataFrame :=
  {| df_columns := ["Country"; "Simple average"]; df_rows := [["Canada"; "3.9"]] |}.

Definition all_secrets : gmap string string :=
  {[ "sendgrid_user" := "alerts@example.org";
     "alert_recipient" := "me@example.org";
     "sendgrid_api_key" := "key" ]}.

(** Every page parses to [p], [respond] answers a request for a URL, [smtp]
    is the outcome of connecting to the mail relay. *)
Definition world (p : Page) (respond : string → Response) (smtp : option Exn)
    (now : Z) (id : string) : World :=
  {| Soup := Page; Tag := Node;
     BeautifulSoup := λ _, Returned p;
     soup_select := select;
     tag_find_all := find_all;
     tag_get_text := get_text;
     tag_get := get;
     requests_get := λ r, Returned (respond (req_url r));
     read_excel := λ _ _ _, Returned sheet;
     re_compile := λ pat _, Returned (String.eqb pat);
     secrets := all_secrets;
     smtp_connect := λ _ _, smtp;
     smtp_starttls := None;
     smtp_login := λ _ _, None;
     smtp_send_message := λ _, None;
     smtp_quit := Returned (221, "b'Bye'");
     server_now := now;
     server_new_id := id;
     add_fault := None;
     query_fault := None |}.

Definition tea_row (code name rate : string) : Node :=
  Tr [code; name; rate; "kg"; "2025-04-01"].

Definition tea_page : Page :=
  {| page_rows := [tea_row "0902.10" "Green Tea" "6.4%";
                   Tr ["0902"; "Tea"; "see below"];
                   tea_row "0902.30" "Black Tea" "8.0%"];
     page_anchors := Anchor <$> [Some "/a.pdf"; Some "/b.html"; Some "/c.pdf";
                                 Some "/d.pdf"; Some "/e.pdf"; Some "/f.pdf"] |}.

Definition green_tea : Inputs :=
  {| query := "0902.10"; country := "United States"; tariff_type := "Applied";
     add_clicked := true |}.

(** Everything answers; the store's clock reads 100, then 200. *)
Definition first_run : World := world tea_page ok None 100 "doc1".
Definition second_run : World := world tea_page ok None 200 "doc2".

(** Every page answers HTTP 500 and the mail relay refuses the connection. *)
Definition bad_day : World := world tea_page server_error (Some refused) 100 "doc1".

(** The same, and the body of the answers has no row and no anchor. *)
Definition blank_page : Page := {| page_rows := []; page_anchors := [] |}.
Definition blank_day : World := world blank_page server_error (Some refused) 100 "doc1".

(** The page is fetched, the mail relay refuses the connection. *)
Definition no_mail : World := world tea_page ok (Some refused) 100 "doc1".

(** The world [w] with another outcome of the QUIT command. *)
Definition with_quit (w : World) (reply : Outcome (Z * string)) : World :=
  {| Soup := Soup w; Tag := Tag w;
     BeautifulSoup := BeautifulSoup w;
     soup_select := soup_select w;
     tag_find_all := tag_find_all w;
     tag_get_text := tag_get_text w;
     tag_get := tag_get w;
     requests_get := requests_get w;
     read_excel := read_excel w;
     re_compile := re_compile w;
     secrets := secrets w;
     smtp_connect := smtp_connect w;
     smtp_starttls := smtp_starttls w;
     smtp_login := smtp_login w;
     smtp_send_message := smtp_send_message w;
     smtp_quit := reply;
     server_now := server_now w;
     server_new_id := server_new_id w;
     add_fault := add_fault w;
     query_fault := query_fault w |}.

(** Everything answers and the relay takes the message, then answers QUIT
    with 421. *)
Definition curt_relay : World :=
  with_quit first_run (Returned (421, "b'4.7.0 Try again later'")).

(** The store after the same search was saved in both runs. *)
Definition saved_once : State :=
  (watchlist_add first_run (watchlist_entry green_tea) init_state).2.
Definition saved_twice : State :=
  (watchlist_add second_run (watchlist_entry green_tea) saved_once).2.

Definition green_tea_row : WatchRow :=
  {| row_query := Some (SStr "0902.10");
     row_country := Some (SStr "United States");
     row_tariff_type := Some (SStr "Applied") |}.

End Fixture.


(** ** What an operation returns and leaves behind, from the answers of the world

    The definitions of this part are compared with the code by the lemmas
    that follow; none of them is used by the script. *)

(** The records [scrape_usitc_tariffs] collects: those of the selected
    rows when the page was fetched and parsed, none otherwise. *)
Definition usitc_records (w : World) (hs_code : string) : list TariffRecord :=
  match requests_get w (USITC_REQUEST hs_code) with
  | Raised _ => []
  | Returned response =>
      match http_error response with
      | Some _ => []
      | None =>
          match BeautifulSoup w (text response) with
          | Raised _ => []
          | Returned soup =>
              flat_map (λ row, fetchTableRecords_row 5 (cell_texts w row))
                (soup_select w soup "#search-results tbody tr")
          end
      end
  end.

(** The message of the USITC panel for a failed fetch. *)
Definition usitc_report (w : World) (hs_code : string) : list Widget :=
  match usitc_fetch_error w hs_code with
  | Some e => [StError ("Error fetching data from USITC: " +:+ exn_msg e)]
  | None => []
  end.

(** The message the alert hands to the relay; a missing secret reads as
    the empty string here, and then no message is handed over. *)
Definition alert_message (w : World) (subject body : string) : Message :=
  {| msg_from := default "" (secrets w !! "sendgrid_user");
     msg_to := default "" (secrets w !! "alert_recipient");
     msg_subject := subject;
     msg_body := body |}.

(** The four steps of a complete alert, in their order. *)
Definition alert_session (w : World) (subject body : string) : list Call :=
  [SmtpConnect "smtp.sendgrid.net" 587 None;
   SmtpStartTls;
   SmtpLogin "apikey" (default "" (secrets w !! "sendgrid_api_key"));
   SmtpSend (alert_message w subject body)].

(** The calls of an alert: the first steps of a session, then the QUIT of
    leaving the [with] block when the block was entered, that is when
    STARTTLS was called. *)
Definition alert_calls (w : World) (subject body : string) (calls : list Call) : Prop :=
  ∃ steps,
    steps `prefix_of` alert_session w subject body
    ∧ ((SmtpStartTls ∉ steps) ∧ calls = steps
       ∨ SmtpStartTls ∈ steps ∧ calls = steps ++ [SmtpQuit]).

(** The rows of the mock table for the selected country and type. *)
Definition selected (i : Inputs) : DataFrame :=
  df_filter (λ row, String.eqb (cell data "Country" row) (country i) &&
                    String.eqb (cell data "Tariff Type" row) (tariff_type i)) data.

(** The mock table after the filter on the query, or the exception of
    compiling the query as a pattern. *)
Definition mock_filtered (w : World) (i : Inputs) : Outcome DataFrame :=
  if truthy (query i) then
    match re_compile w (query i) true with
    | Raised e => Raised e
    | Returned by_product =>
        match re_compile w (query i) false with
        | Raised e => Raised e
        | Returned by_code =>
            Returned (df_filter (λ row, by_product (cell data "Product" row) ||
                                        by_code (cell data "HS Code" row)) (selected i))
        end
    end
  else Returned (selected i).

(** The widgets of the mock panel around the table [f]. *)
Definition mock_panel (f : DataFrame) : list Widget :=
  [Subheader "Tariff Results (Mock Data)"; StDataframe f;
   Subheader "Tariff Trends Over Time"; StPlotlyChart].

(** The watchlist panel for a store holding [c]. *)
Definition watchlist_panel (w : World) (c : list Document) : list Widget :=
  [Subheader "My Watchlist";
   match query_fault w with
   | Some e => StError ("Error fetching watchlist: " +:+ exn_msg e)
   | None =>
       match order_by_desc "timestamp" c with
       | [] => StInfo "No items in your watchlist yet."
       | docs => StTable (watch_row <$> docs)
       end
   end].

(** The row of the watchlist table for the search of the inputs. *)
Definition input_row (i : Inputs) : WatchRow :=
  {| row_query := Some (SStr (query i));
     row_country := Some (SStr (country i));
     row_tariff_type := Some (SStr (tariff_type i)) |}.

(** More worlds for examples. *)
Module Cases.

(** [w] with another sheet, another store behaviour and another pattern
    compiler. *)
Definition with_faults (w : World) (excel : Outcome DataFrame) (add query : option Exn)
    (compile : string → bool → Outcome (string → bool)) : World :=
  {| Soup := Soup w; Tag := Tag w;
     BeautifulSoup := BeautifulSoup w;
     soup_select := soup_select w;
     tag_find_all := tag_find_all w;
     tag_get_text := tag_get_text w;
     tag_get := tag_get w;
     requests_get := requests_get w;
     read_excel := λ _ _ _, excel;
     re_compile := compile;
     secrets := secrets w;
     smtp_connect := smtp_connect w;
     smtp_starttls := smtp_starttls w;
     smtp_login := smtp_login w;
     smtp_send_message := smtp_send_message w;
     smtp_quit := smtp_quit w;
     server_now := server_now w;
     server_new_id := server_new_id w;
     add_fault := add;
     query_fault := query |}.

Definition unavailable : Exn :=
  {| exn_class := "ServiceUnavailable"; exn_msg := "503 store unavailable" |}.

Definition bad_pattern : Exn :=
  {| exn_class := "error"; exn_msg := "missing ), unterminated subpattern at position 0" |}.

(** A compiler that rejects patterns starting with an open parenthesis. *)
Definition compile (pattern : string) (ignore_case : bool) : Outcome (string → bool) :=
  if String.eqb (substring 0 1 pattern) "(" then Raised bad_pattern
  else Returned (String.eqb pattern).

(** Twelve rows of a sheet. *)
Definition long_sheet : DataFrame :=
  {| df_columns := ["Country"];
     df_rows := (λ n : nat, [pretty n]) <$> seq 0 12 |}.

Definition store_down : World :=
  with_faults Fixture.first_run (Returned long_sheet)
    (Some unavailable) (Some unavailable) compile.

Definition strict_patterns : World :=
  with_faults Fixture.first_run (Returned long_sheet) None None compile.

Definition no_sheet : World :=
  with_faults Fixture.first_run (Raised Fixture.timed_out) None None compile.

(** A page whose only row has three cells. *)
Definition short_page : Fixture.Page :=
  {| Fixture.page_rows := [Fixture.Tr ["0902"; "Tea"; "see below"]];
     Fixture.page_anchors := [] |}.

Definition short_day : World := Fixture.world short_page Fixture.ok None 100 "doc1".

Definition open_paren : Inputs :=
  {| query := "(tea"; country := "United States"; tariff_type := "Applied";
     add_clicked := false |}.

Definition no_query : Inputs :=
  {| query := ""; country := "China"; tariff_type := "Applied"; add_clicked := false |}.

Definition not_clicked : Inputs :=
  {| query := "0902.10"; country := "United States"; tariff_type := "Applied";
     add_clicked := false |}.

End Cases.
(** * Properties *)

(** ** The monad *)

Lemma run_bind {A B} (m : M A) (f : A → M B) (s : State) :
  (m ≫= f) s = match m s with
               | (Returned a, s') => f a s'
               | (Raised e, s') => (Raised e, s')
               end.
Proof. reflexivity. Qed.

Lemma run_ret {A} (a : A) (s : State) : (mret a : M A) s = (Returned a, s).
Proof. reflexivity. Qed.

(** ** [endswith] *)

Lemma substring_all (t : string) : substring 0 (String.length t) t = t.
Proof. induction t as [|b t IH]; simpl; [reflexivity | by rewrite IH]. Qed.

Lemma substring_append_r (p t : string) :
  substring (String.length p) (String.length t) (p +:+ t) = t.
Proof.
  induction p as [|a p IH]; simpl; [apply substring_all | exact IH].
Qed.

Lemma length_append (p t : string) :
  String.length (p +:+ t) = (String.length p + String.length t)%nat.
Proof. induction p as [|a p IH]; simpl; [reflexivity | by rewrite IH]. Qed.

Lemma substring_split (s : string) (n : nat) :
  (n ≤ String.length s)%nat →
  s = substring 0 n s +:+ substring n (String.length s - n) s.
Proof.
  revert n. induction s as [|a s IH]; intros n Hn; simpl in *.
  - destruct n; [reflexivity | lia].
  - destruct n as [|n]; simpl.
    + by rewrite substring_all.
    + change (String a s = String a (substring 0 n s +:+ substring n (String.length s - n) s)).
      f_equal. apply IH. lia.
Qed.

Lemma endswith_spec (s suffix : string) :
  endswith s suffix = true ↔ ∃ p, s = p +:+ suffix.
Proof.
  unfold endswith. rewrite andb_true_iff, Nat.leb_le, String.eqb_eq. split.
  - intros [Hle Hsub].
    exists (substring 0 (String.length s - String.length suffix) s).
    pose proof (substring_split s (String.length s - String.length suffix)) as E.
    replace (String.length s - (String.length s - String.length suffix))%nat
      with (String.length suffix) in E by lia.
    rewrite Hsub in E. apply E. lia.
  - intros [p ->]. rewrite length_append. split; [lia |].
    replace (String.length p + String.length suffix - String.length suffix)%nat
      with (String.length p) by lia.
    apply substring_append_r.
Qed.

(** ** The table extractor *)

Lemma usitc_row_spec (w : World) (results : list TariffRecord) (row : Tag w) (s : State) :
  usitc_row w results row s
  = (Returned (results ++ fetchTableRecords_row 5 (cell_texts w row)), s).
Proof.
  unfold usitc_row, fetchTableRecords_row, cell_texts.
  rewrite length_fmap.
  destruct (5 <=? length (tag_find_all w row "td"))%nat eqn:Hlen.
  - apply Nat.leb_le in Hlen.
    destruct (tag_find_all w row "td") as [|c0 [|c1 [|c2 [|c3 [|c4 rest]]]]];
      simpl in Hlen; try lia.
    reflexivity.
  - rewrite run_ret, app_nil_r. reflexivity.
Qed.

Lemma usitc_rows_spec (w : World) (rows : list (Tag w)) (results : list TariffRecord) (s : State) :
  for_each rows (usitc_row w) results s
  = (Returned (results ++ flat_map (λ row, fetchTableRecords_row 5 (cell_texts w row)) rows), s).
Proof.
  revert results. induction rows as [|row rows IH]; intros results; simpl.
  - by rewrite app_nil_r.
  - rewrite run_bind, usitc_row_spec, IH, <- app_assoc. reflexivity.
Qed.

Lemma fetchTableRecords_row_length (minColumns : nat) (cells : list string) :
  length (fetchTableRecords_row minColumns cells)
  = if (minColumns <=? length cells)%nat then 1%nat else 0%nat.
Proof. unfold fetchTableRecords_row. by destruct (minColumns <=? length cells)%nat. Qed.

Lemma flat_map_length_le {A B} (f : A → list B) (l : list A) :
  (∀ x, length (f x) ≤ 1)%nat → (length (flat_map f l) ≤ length l)%nat.
Proof.
  intros Hf. induction l as [|x l IH]; simpl; [lia |].
  rewrite length_app. specialize (Hf x). lia.
Qed.

(** ** The link-list extractor *)

Lemma pdf_href_filter (w : World) (links : list (Tag w)) :
  omap (pdf_href w) links = List.filter (λ href, endswith href ".pdf") (hrefs w links).
Proof.
  unfold hrefs. induction links as [|link links IH]; [reflexivity |].
  cbn [omap list_omap]. unfold pdf_href at 1.
  destruct (tag_get w link "href") as [href|]; [|exact IH].
  assert (truthy href && endswith href ".pdf" = endswith href ".pdf") as ->
    by (by destruct href).
  cbn [List.filter]. destruct (endswith href ".pdf"); by rewrite IH.
Qed.

Lemma get_ustr_updates_run (w : World) (s : State) :
  let s1 := {| ui := ui s; db := db s; net := net s ++ [HttpGet USTR_REQUEST] |} in
  let failed e :=
    (Returned [],
     {| ui := ui s ++ [StError ("Failed to load USTR updates: " +:+ exn_msg e)];
        db := db s; net := net s1 |}) in
  get_ustr_updates w s =
    match requests_get w USTR_REQUEST with
    | Raised e => failed e
    | Returned response =>
        match BeautifulSoup w (text response) with
        | Raised e => failed e
        | Returned soup =>
            (Returned (fetchLinkList ".pdf" 5 (hrefs w (soup_select w soup ".view-content a"))), s1)
        end
    end.
Proof.
  unfold get_ustr_updates, try_except, http_get, fetchLinkList.
  rewrite !run_bind. cbn [issue lift].
  destruct (requests_get w USTR_REQUEST) as [response|e]; [|reflexivity].
  rewrite run_bind. cbn [lift].
  destruct (BeautifulSoup w (text response)) as [soup|e]; [|reflexivity].
  rewrite run_ret, pdf_href_filter. reflexivity.
Qed.

Lemma fetchLinkList_suffix (suffixFilter : string) (limit : nat) (l : list string) :
  Forall (λ href, ∃ p, href = p +:+ suffixFilter) (fetchLinkList suffixFilter limit l).
Proof.
  unfold fetchLinkList. apply Forall_take, Forall_forall.
  intros href Hin%list_elem_of_In. apply filter_In in Hin as [_ Hend].
  by apply endswith_spec.
Qed.

Lemma fetchLinkList_length (suffixFilter : string) (limit : nat) (l : list string) :
  (length (fetchLinkList suffixFilter limit l) ≤ limit)%nat.
Proof. unfold fetchLinkList. rewrite length_take. lia. Qed.

Lemma filter_sublist {A} (f : A → bool) (l : list A) : List.filter f l `sublist_of` l.
Proof.
  induction l as [|x l IH]; simpl; [constructor |].
  destruct (f x); by constructor.
Qed.

Lemma fetchLinkList_order (suffixFilter : string) (limit : nat) (l : list string) :
  fetchLinkList suffixFilter limit l `sublist_of` l.
Proof.
  unfold fetchLinkList. etrans; [apply sublist_take | apply filter_sublist].
Qed.

(** C2. [get_ustr_updates] always returns a list; each element ends in
    ".pdf"; there are at most five; when the page was fetched and parsed
    the list is the first five of the ".pdf" [href] values of the selected
    anchors (the filter is applied before the cap), a subsequence of the
    [href] values in document order. *)
Theorem get_ustr_updates_links (w : World) (s : State) :
  ∃ links s',
    get_ustr_updates w s = (Returned links, s')
    ∧ Forall (λ href, ∃ p, href = p +:+ ".pdf") links
    ∧ (length links ≤ 5)%nat
    ∧ (∀ response soup,
         requests_get w USTR_REQUEST = Returned response →
         BeautifulSoup w (text response) = Returned soup →
         let anchors := hrefs w (soup_select w soup ".view-content a") in
         links = take 5 (List.filter (λ href, endswith href ".pdf") anchors)
         ∧ links `sublist_of` anchors).
Proof.
  rewrite get_ustr_updates_run.
  destruct (requests_get w USTR_REQUEST) as [response|e] eqn:Hget.
  - destruct (BeautifulSoup w (text response)) as [soup|e] eqn:Hparse.
    + eexists _, _. split; [reflexivity |].
      split; [apply fetchLinkList_suffix |].
      split; [apply fetchLinkList_length |].
      intros response' soup' [= <-] Hparse'. rewrite Hparse in Hparse'.
      injection Hparse' as <-.
      split; [reflexivity | apply fetchLinkList_order].
    + eexists _, _. split; [reflexivity |].
      split; [constructor |]. split; [simpl; lia |].
      intros response' soup' [= <-] Hparse'. congruence.
  - eexists _, _. split; [reflexivity |].
    split; [constructor |]. split; [simpl; lia |]. intros ? ? [=].
Qed.

(** ** The Firestore collection *)

#[global] Instance stored_le_total : Total stored_le.
Proof.
  intros [x|x] [y|y]; simpl; auto.
  - apply (total String.le).
  - lia.
Qed.

#[global] Instance stored_le_trans : Transitive stored_le.
Proof.
  intros [x|x] [y|y] [z|z]; simpl; try tauto; try lia.
  apply (transitivity (R := String.le)).
Qed.

#[global] Instance descending_total : Total descending.
Proof.
  intros [k1 d1] [k2 d2]. unfold descending. simpl.
  destruct (decide (stored_le k1 k2)) as [H12|H12],
           (decide (stored_le k2 k1)) as [H21|H21].
  - destruct (total String.le (doc_id d2) (doc_id d1)); [left | right]; tauto.
  - right. tauto.
  - left. tauto.
  - destruct (total stored_le k1 k2); tauto.
Qed.

#[global] Instance descending_trans : Transitive descending.
Proof.
  intros [k1 d1] [k2 d2] [k3 d3]. unfold descending. simpl.
  intros [H21 Hid21] [H32 Hid32]. split; [by etrans |].
  intros H13. etrans; [apply Hid32 | apply Hid21]; by etrans.
Qed.

Lemma keyed_Some (field : string) (d : Document) (kd : Stored * Document) :
  keyed field d = Some kd ↔ kd.2 = d ∧ doc_fields d !! field = Some kd.1.
Proof.
  unfold keyed. destruct (doc_fields d !! field) as [v|]; simpl.
  - split; [by intros [= <-] |]. destruct kd; simpl. by intros [-> [= ->]].
  - split; [done | by intros [_ ?]].
Qed.

Lemma omap_keyed_snd (field : string) (c : list Document) :
  snd <$> omap (keyed field) c
  = List.filter (λ d, bool_decide (is_Some (doc_fields d !! field))) c.
Proof.
  induction c as [|d c IH]; [reflexivity |].
  cbn [omap list_omap List.filter]. unfold keyed at 1.
  destruct (doc_fields d !! field) as [v|]; simpl.
  - f_equal. exact IH.
  - exact IH.
Qed.

Lemma order_by_desc_filter (field : string) (c : list Document) :
  order_by_desc field c
  ≡ₚ List.filter (λ d, bool_decide (is_Some (doc_fields d !! field))) c.
Proof.
  unfold order_by_desc. rewrite merge_sort_Permutation. by rewrite omap_keyed_snd.
Qed.

Lemma filter_all {A} (f : A → bool) (l : list A) :
  Forall (λ x, f x = true) l → List.filter f l = l.
Proof. induction 1 as [|x l Hx _ IH]; simpl; [done | by rewrite Hx, IH]. Qed.

Lemma createdAt_Some (d : Document) (t : Z) :
  createdAt d = Some t ↔ doc_fields d !! "timestamp" = Some (STime t).
Proof.
  unfold createdAt. destruct (doc_fields d !! "timestamp") as [[x|x]|]; naive_solver.
Qed.

(** A listing ordered by "timestamp" keeps every document that has a time. *)
Lemma order_by_desc_all (c : list Document) :
  dated c → order_by_desc "timestamp" c ≡ₚ c.
Proof.
  unfold dated. intros Hc. rewrite order_by_desc_filter, filter_all; [done |].
  eapply Forall_impl; [exact Hc |]. intros d [t Ht%createdAt_Some].
  rewrite bool_decide_true; [done | eauto].
Qed.

Lemma StronglySorted_fmap_on {A B} (f : A → B) (P : A → Prop)
    (R1 : relation A) (R2 : relation B) (l : list A) :
  (∀ x y, P x → P y → R1 x y → R2 (f x) (f y)) →
  Forall P l → StronglySorted R1 l → StronglySorted R2 (f <$> l).
Proof.
  intros HR HP Hs. induction Hs as [|x l Hs IH Hx]; csimpl; [constructor |].
  apply Forall_cons in HP as [HPx HPl]. constructor; [by apply IH |].
  rewrite Forall_fmap. apply Forall_forall. intros y Hy. simpl.
  rewrite Forall_forall in Hx, HPl. by apply HR; auto.
Qed.

(** A listing ordered by "timestamp" is newest first. *)
Lemma order_by_desc_sorted (c : list Document) :
  dated c → StronglySorted newest_first (order_by_desc "timestamp" c).
Proof.
  unfold dated. intros Hc. unfold order_by_desc.
  apply (StronglySorted_fmap_on snd
           (λ kd, doc_fields kd.2 !! "timestamp" = Some kd.1 ∧ is_Some (createdAt kd.2))
           descending).
  - intros [k1 d1] [k2 d2] [Hk1 [t1 Ht1]] [Hk2 [t2 Ht2]] [Hle _]. simpl in *.
    exists t1, t2. repeat split; [done..|].
    apply createdAt_Some in Ht1, Ht2. rewrite Hk1 in Ht1. rewrite Hk2 in Ht2.
    by simplify_eq.
  - apply Forall_forall. intros kd Hkd.
    rewrite merge_sort_Permutation in Hkd.
    apply list_elem_of_omap in Hkd as (d & Hd & [<- Hk]%keyed_Some).
    split; [done |]. rewrite Forall_forall in Hc. by apply Hc.
  - apply StronglySorted_merge_sort; apply _.
Qed.

Lemma order_by_desc_elem (field : string) (c : list Document) (d : Document) :
  d ∈ order_by_desc field c ↔ d ∈ c ∧ is_Some (doc_fields d !! field).
Proof.
  rewrite order_by_desc_filter, !list_elem_of_In, filter_In, bool_decide_eq_true.
  done.
Qed.

(** ** What one call of each operation does *)

Ltac unfold_M :=
  cbv [mbind M_bind mret M_ret raise lift try_except with_exit show issue get_db
       put_db fallible].

Lemma watchlist_add_run (w : World) (entry : gmap string Field) (s : State) :
  let s0 := {| ui := ui s; db := db s; net := net s ++ [StoreAdd "watchlist" entry] |} in
  watchlist_add w entry s =
    match add_fault w with
    | Some e => (Raised e, s0)
    | None =>
        match collection_add (server_now w) (server_new_id w) entry (db s) with
        | Returned c' => (Returned (), {| ui := ui s; db := c'; net := net s0 |})
        | Raised e => (Raised e, s0)
        end
    end.
Proof.
  unfold watchlist_add. unfold_M.
  destruct (add_fault w) as [e|]; [reflexivity |].
  cbn [ui db net]. by destruct (collection_add _ _ _ _).
Qed.

Lemma collection_add_Returned (now : Z) (id : string) (entry : gmap string Field)
    (c c' : list Document) :
  collection_add now id entry c = Returned c' ↔
  (id ∉ (doc_id <$> c))
  ∧ c' = c ++ [new_document now id entry].
Proof.
  unfold collection_add. case_bool_decide as Hid; split.
  - intros [=].
  - by intros [? _].
  - by intros [= <-].
  - by intros [_ ->].
Qed.

Lemma scrape_usitc_tariffs_run (w : World) (hs_code : string) (s : State) :
  let s1 := {| ui := ui s; db := db s; net := net s ++ [HttpGet (USITC_REQUEST hs_code)] |} in
  let failed e :=
    (Returned empty_frame,
     {| ui := ui s ++ [StError ("Error fetching data from USITC: " +:+ exn_msg e)];
        db := db s; net := net s1 |}) in
  scrape_usitc_tariffs w hs_code s =
    match requests_get w (USITC_REQUEST hs_code) with
    | Raised e => failed e
    | Returned response =>
        match http_error response with
        | Some e => failed e
        | None =>
            match BeautifulSoup w (text response) with
            | Raised e => failed e
            | Returned soup =>
                (Returned
                   (pd_DataFrame
                      (flat_map (λ row, fetchTableRecords_row 5 (cell_texts w row))
                         (soup_select w soup "#search-results tbody tr"))), s1)
            end
        end
    end.
Proof.
  unfold scrape_usitc_tariffs, http_get, raise_for_status. unfold_M.
  destruct (requests_get w (USITC_REQUEST hs_code)) as [response|e]; [|reflexivity].
  destruct (http_error response) as [e|]; [reflexivity |].
  destruct (BeautifulSoup w (text response)) as [soup|e]; [|reflexivity].
  rewrite usitc_rows_spec. reflexivity.
Qed.

(** C1. When the page was fetched and parsed, [scrape_usitc_tariffs]
    answers the frame of the records of the selected rows, in the order of
    the rows, and shows no message.  Its loop runs without an exception; a
    row adds exactly one record when it has at least five cells and none
    otherwise; the record takes the texts of the cells at positions 0..4,
    in this order, whatever follows them; so there are never more records,
    nor more rows in the frame, than rows in the table. *)
Theorem usitc_rows_positional (w : World) (hs_code : string) (response : Response)
    (soup : Soup w) (s : State) :
  requests_get w (USITC_REQUEST hs_code) = Returned response →
  http_error response = None →
  BeautifulSoup w (text response) = Returned soup →
  let rows := soup_select w soup "#search-results tbody tr" in
  let emitted row := fetchTableRecords_row 5 (cell_texts w row) in
  scrape_usitc_tariffs w hs_code s
  = (Returned (pd_DataFrame (flat_map emitted rows)),
     {| ui := ui s; db := db s; net := net s ++ [HttpGet (USITC_REQUEST hs_code)] |})
  ∧ df_rows (pd_DataFrame (flat_map emitted rows)) = tariff_row <$> flat_map emitted rows
  ∧ (∀ results row s', usitc_row w results row s' = (Returned (results ++ emitted row), s'))
  ∧ (∀ table s', for_each table (usitc_row w) [] s' = (Returned (flat_map emitted table), s'))
  ∧ (∀ row, length (emitted row)
            = if (5 <=? length (tag_find_all w row "td"))%nat then 1%nat else 0%nat)
  ∧ (∀ row c0 c1 c2 c3 c4,
       emitted row = [{| hsCode := c0; product := c1; tariffRate := c2;
                         unit := c3; effectiveDate := c4 |}]
       ↔ ∃ rest, cell_texts w row = c0 :: c1 :: c2 :: c3 :: c4 :: rest)
  ∧ (length (flat_map emitted rows) ≤ length rows)%nat
  ∧ (length (df_rows (pd_DataFrame (flat_map emitted rows))) ≤ length rows)%nat.
Proof.
  intros Hget Hstatus Hsoup rows emitted.
  assert (length (flat_map emitted rows) ≤ length rows)%nat as Hcount.
  { apply flat_map_length_le. intros row. unfold emitted.
    rewrite fetchTableRecords_row_length. case_match; lia. }
  assert (df_rows (pd_DataFrame (flat_map emitted rows))
          = tariff_row <$> flat_map emitted rows) as Hframe
    by (by destruct (flat_map emitted rows)).
  split; [by rewrite scrape_usitc_tariffs_run, Hget, Hstatus, Hsoup |].
  split; [done |]. split; [intros; apply usitc_row_spec |].
  split; [intros; apply usitc_rows_spec |]. split.
  { intros row. unfold emitted. rewrite fetchTableRecords_row_length.
    unfold cell_texts. by rewrite length_fmap. }
  split; [|split; [done | by rewrite Hframe, length_fmap]].
  intros row c0 c1 c2 c3 c4. unfold emitted, fetchTableRecords_row. split.
  - destruct (5 <=? length (cell_texts w row))%nat eqn:Hlen; [|discriminate].
    apply Nat.leb_le in Hlen.
    destruct (cell_texts w row) as [|d0 [|d1 [|d2 [|d3 [|d4 more]]]]];
      simpl in Hlen; try lia.
    simpl. intros [= -> -> -> -> ->]. by exists more.
  - intros [more Hcells]. rewrite Hcells. reflexivity.
Qed.

Lemma usitc_rows_positional_witness :
  scrape_usitc_tariffs Fixture.first_run "0902.10" init_state
  = (Returned
       {| df_columns := tariff_columns;
          df_rows := [["0902.10"; "Green Tea"; "6.4%"; "kg"; "2025-04-01"];
                      ["0902.30"; "Black Tea"; "8.0%"; "kg"; "2025-04-01"]] |},
     {| ui := []; db := []; net := [HttpGet (USITC_REQUEST "0902.10")] |}).
Proof.
  exact (proj1 (usitc_rows_positional Fixture.first_run "0902.10"
                  (Fixture.ok (USITC_URL +:+ "0902.10")) Fixture.tea_page init_state
                  eq_refl eq_refl eq_refl)).
Defined.

Lemma scrape_wto_tariffs_run (w : World) (s : State) :
  let s1 := {| ui := ui s; db := db s; net := net s ++ [ReadExcel WTO_URL 1 6] |} in
  scrape_wto_tariffs w s =
    match read_excel w WTO_URL 1 6 with
    | Raised e =>
        (Returned empty_frame,
         {| ui := ui s ++ [StError ("Failed to load WTO data: " +:+ exn_msg e)];
            db := db s; net := net s1 |})
    | Returned df => (Returned (df_head 10 df), s1)
    end.
Proof.
  unfold scrape_wto_tariffs. unfold_M.
  by destruct (read_excel w WTO_URL 1 6).
Qed.

Lemma for_each_show {A} (f : A → Widget) (l : list A) (s : State) :
  for_each l (λ _ x, show (f x)) () s
  = (Returned (), {| ui := ui s ++ (f <$> l); db := db s; net := net s |}).
Proof.
  revert s. induction l as [|x l IH]; intros s; simpl.
  - rewrite run_ret, app_nil_r. by destruct s.
  - rewrite run_bind. cbn [show]. rewrite IH. cbn [ui db net fmap list_fmap].
    by rewrite <- app_assoc.
Qed.

(** ** Rules for [returns] *)

Lemma returns_ret {A} (a : A) : returns (mret a : M A).
Proof. intros s. by eexists _, _. Qed.

Lemma returns_show (x : Widget) : returns (show x).
Proof. intros s. by eexists _, _. Qed.

Lemma returns_bind {A B} (m : M A) (f : A → M B) :
  returns m → (∀ a, returns (f a)) → returns (m ≫= f).
Proof.
  intros Hm Hf s. rewrite run_bind.
  destruct (Hm s) as (a & s' & ->). apply Hf.
Qed.

Lemma returns_try_except {A} (body : M A) (handler : Exn → M A) :
  (∀ e, returns (handler e)) → returns (try_except body handler).
Proof.
  intros Hh s. unfold try_except.
  destruct (body s) as [[a|e] s']; [by eexists _, _ | apply Hh].
Qed.

Lemma returns_for_each {A B} (l : list A) (body : B → A → M B) (acc : B) :
  (∀ acc x, returns (body acc x)) → returns (for_each l body acc).
Proof.
  intros Hb. revert acc. induction l as [|x l IH]; intros acc; simpl.
  - apply returns_ret.
  - apply returns_bind; [apply Hb | apply IH].
Qed.

Create HintDb returns.
#[global] Hint Resolve returns_ret returns_show returns_bind returns_try_except
  returns_for_each : returns.

(** ** Rules for [issues] *)

Section Issues.
Context (P : Call → Prop).

Lemma issues_ret {A} (a : A) : issues P (mret a : M A).
Proof. intros s. exists []. by rewrite app_nil_r. Qed.

Lemma issues_raise {A} (e : Exn) : issues P (raise e : M A).
Proof. intros s. exists []. by rewrite app_nil_r. Qed.

Lemma issues_lift {A} (o : Outcome A) : issues P (lift o).
Proof. intros s. exists []. by rewrite app_nil_r. Qed.

Lemma issues_fallible (o : option Exn) : issues P (fallible o).
Proof. destruct o; [apply issues_raise | apply issues_ret]. Qed.

Lemma issues_show (x : Widget) : issues P (show x).
Proof. intros s. exists []. by rewrite app_nil_r. Qed.

Lemma issues_get_db : issues P get_db.
Proof. intros s. exists []. by rewrite app_nil_r. Qed.

Lemma issues_put_db (c : list Document) : issues P (put_db c).
Proof. intros s. exists []. by rewrite app_nil_r. Qed.

Lemma issues_issue (c : Call) : P c → issues P (issue c).
Proof. intros Hc s. exists [c]. split; [done | by constructor]. Qed.

Lemma issues_bind {A B} (m : M A) (f : A → M B) :
  issues P m →
  (∀ a s s', m s = (Returned a, s') → issues P (f a)) →
  issues P (m ≫= f).
Proof.
  intros Hm Hf s. rewrite run_bind. destruct (Hm s) as (c1 & H1 & F1).
  destruct (m s) as [[a|e] s'] eqn:E; simpl in H1; [|by exists c1].
  destruct (Hf a s s' E s') as (c2 & H2 & F2).
  exists (c1 ++ c2). rewrite H2, H1, app_assoc. split; [done | by apply Forall_app].
Qed.

Lemma issues_try_except {A} (body : M A) (handler : Exn → M A) :
  issues P body → (∀ e, issues P (handler e)) → issues P (try_except body handler).
Proof.
  intros Hb Hh s. unfold try_except. destruct (Hb s) as (c1 & H1 & F1).
  destruct (body s) as [[a|e] s'] eqn:E; simpl in H1; [by exists c1 |].
  destruct (Hh e s') as (c2 & H2 & F2).
  exists (c1 ++ c2). rewrite H2, H1, app_assoc. split; [done | by apply Forall_app].
Qed.

Lemma issues_with_exit {A} (body : M A) (exit : M ()) :
  issues P body → issues P exit → issues P (with_exit body exit).
Proof.
  intros Hb Hx s. unfold with_exit. destruct (Hb s) as (c1 & H1 & F1).
  destruct (body s) as [o s'] eqn:E; simpl in H1.
  destruct (Hx s') as (c2 & H2 & F2).
  exists (c1 ++ c2). split; [|by apply Forall_app].
  destruct (exit s') as [[[]|e] s''] eqn:E'; simpl in *; by rewrite H2, H1, app_assoc.
Qed.

Lemma issues_for_each {A B} (l : list A) (body : B → A → M B) (acc : B) :
  (∀ acc x, issues P (body acc x)) → issues P (for_each l body acc).
Proof.
  intros Hb. revert acc. induction l as [|x l IH]; intros acc; simpl.
  - apply issues_ret.
  - apply issues_bind; [apply Hb | intros; apply IH].
Qed.

End Issues.


Lemma issues_bind_all {A B} (P : Call → Prop) (m : M A) (f : A → M B) :
  issues P m → (∀ a, issues P (f a)) → issues P (m ≫= f).
Proof. intros Hm Hf. apply issues_bind; auto. Qed.

Lemma issues_index {A} (P : Call → Prop) (l : list A) (i : nat) : issues P (index l i).
Proof. unfold index. destruct (l !! i); [apply issues_ret | apply issues_raise]. Qed.

(** ** The calls of a run

    The lemmas of this section hold for every property [P] of calls that
    the calls of the script other than the write to the store have, and
    that the write of the watchlist button has once its guards are passed. *)

Section Calls.
Context (w : World) (i : Inputs) (P : Call → Prop).
Hypothesis P_other :
  ∀ c, (∀ collection entry, c ≠ StoreAdd collection entry) → script_call c → P c.
Hypothesis P_add :
  add_reached w i → P (StoreAdd "watchlist" (watchlist_entry i)).

Ltac script_shape :=
  cbn [script_call];
  first [exact I | by repeat split | by left | by right; eexists].

Ltac issues_step :=
  first
    [ apply issues_ret | apply issues_raise | apply issues_lift
    | apply issues_fallible | apply issues_show | apply issues_get_db
    | apply issues_put_db | apply issues_index
    | apply issues_issue; apply P_other; [by intros ? ? | script_shape]
    | apply issues_try_except
    | apply issues_with_exit
    | apply issues_for_each
    | apply issues_bind_all
    | progress intros ].

Lemma scrape_usitc_tariffs_issues (hs_code : string) :
  issues P (scrape_usitc_tariffs w hs_code).
Proof.
  unfold scrape_usitc_tariffs, http_get, raise_for_status, usitc_row.
  repeat issues_step. case_match; repeat issues_step.
Qed.

Lemma scrape_wto_tariffs_issues : issues P (scrape_wto_tariffs w).
Proof. unfold scrape_wto_tariffs. repeat issues_step. Qed.

Lemma get_ustr_updates_issues : issues P (get_ustr_updates w).
Proof. unfold get_ustr_updates, http_get. repeat issues_step. Qed.

Lemma send_email_alert_issues (subject body : string) :
  issues P (send_email_alert w subject body).
Proof.
  unfold send_email_alert, smtp_exit, secret.
  repeat (issues_step || case_match).
Qed.

Lemma wto_section_issues : issues P (wto_section w).
Proof.
  unfold wto_section.
  repeat (apply scrape_wto_tariffs_issues || issues_step || case_match).
Qed.

Lemma ustr_section_issues : issues P (ustr_section w).
Proof.
  unfold ustr_section.
  repeat (apply get_ustr_updates_issues || issues_step).
Qed.

Lemma mock_section_issues : issues P (mock_section w i).
Proof. unfold mock_section. repeat (issues_step || case_match). Qed.

Lemma watchlist_section_issues : issues P (watchlist_section w).
Proof.
  unfold watchlist_section, watchlist_stream.
  apply issues_bind_all; [apply issues_show | intros _].
  apply issues_try_except; [|intros; apply issues_show].
  apply issues_bind_all; [repeat issues_step | intros docs].
  cbv zeta. destruct (watch_row <$> docs); apply issues_show.
Qed.

Lemma usitc_section_issues : issues P (usitc_section w i).
Proof.
  unfold usitc_section.
  destruct (truthy (query i) && String.eqb (country i) "United States") eqn:Hguard;
    [|apply issues_ret].
  apply andb_true_iff in Hguard as [Hquery Hcountry%String.eqb_eq].
  apply issues_bind_all; [apply issues_show | intros _].
  apply issues_bind; [apply scrape_usitc_tariffs_issues |].
  intros usitc_data s0 s0' Hscrape.
  destruct (df_empty usitc_data) eqn:Hempty; simpl; [apply issues_show |].
  apply issues_bind_all; [apply issues_show | intros _].
  unfold add_to_watchlist.
  apply issues_bind_all; [apply issues_show | intros _].
  destruct (add_clicked i) eqn:Hclick; [|apply issues_ret].
  apply issues_try_except; [|intros; apply issues_show].
  apply issues_bind_all.
  - unfold watchlist_add. apply issues_bind_all; [|repeat issues_step].
    apply issues_issue, P_add. repeat split; try done.
    by exists usitc_data, s0, s0'.
  - intros _. apply issues_bind_all; [apply issues_show | intros _].
    apply issues_bind_all; [apply send_email_alert_issues | intros; apply issues_ret].
Qed.

Lemma rest_issues : issues P (mock_section w i;; watchlist_section w).
Proof.
  apply issues_bind_all; [apply mock_section_issues |].
  intros _. apply watchlist_section_issues.
Qed.

Lemma dashboard_issues : issues P (dashboard w i).
Proof.
  unfold dashboard, sources.
  apply issues_bind_all; [|intros _; apply rest_issues].
  apply issues_bind_all; [|intros _; apply issues_bind_all; [|intros _]].
  - apply usitc_section_issues.
  - apply wto_section_issues.
  - apply ustr_section_issues.
Qed.

End Calls.

(** The writes to the store of a run are behind the guards of the button. *)
Lemma dashboard_guarded (w : World) (i : Inputs) :
  issues (guarded_add w i) (dashboard w i).
Proof.
  apply dashboard_issues.
  - intros c Hc _ collection entry ->. by destruct (Hc collection entry).
  - by intros Hreached collection entry [= <- <-].
Qed.

(** The calls of a run are the calls of the script. *)
Lemma dashboard_script_calls (w : World) (i : Inputs) :
  issues script_call (dashboard w i).
Proof. apply dashboard_issues; [done | by intros _]. Qed.


(** ** The three sources *)

Lemma wto_section_run (w : World) (s : State) :
  wto_section w s
  = (Returned (), {| ui := ui s ++ wto_panel w; db := db s;
                     net := net s ++ [ReadExcel WTO_URL 1 6] |}).
Proof.
  unfold wto_section, wto_panel. rewrite run_bind. cbn [show].
  rewrite run_bind, scrape_wto_tariffs_run. cbn [ui db net].
  destruct (read_excel w WTO_URL 1 6) as [df|e].
  - destruct (df_empty (df_head 10 df)); cbn [negb]; unfold_M; cbn [ui db net];
      by rewrite <- ?app_assoc, ?app_nil_r.
  - cbn. by rewrite <- app_assoc.
Qed.

Lemma ustr_section_run (w : World) (s : State) :
  ustr_section w s
  = (Returned (), {| ui := ui s ++ ustr_panel w; db := db s;
                     net := net s ++ [HttpGet USTR_REQUEST] |}).
Proof.
  unfold ustr_section, ustr_panel. rewrite run_bind. cbn [show].
  rewrite run_bind, get_ustr_updates_run. cbn [ui db net].
  destruct (requests_get w USTR_REQUEST) as [response|e].
  - destruct (BeautifulSoup w (text response)) as [soup|e].
    + rewrite for_each_show. cbn [ui db net]. by rewrite <- app_assoc.
    + cbn. by rewrite <- app_assoc.
  - cbn. by rewrite <- app_assoc.
Qed.

Lemma scrape_usitc_tariffs_failed (w : World) (hs_code : string) (e : Exn) (s : State) :
  usitc_fetch_error w hs_code = Some e →
  scrape_usitc_tariffs w hs_code s
  = (Returned empty_frame,
     {| ui := ui s ++ [StError ("Error fetching data from USITC: " +:+ exn_msg e)];
        db := db s; net := net s ++ [HttpGet (USITC_REQUEST hs_code)] |}).
Proof.
  rewrite scrape_usitc_tariffs_run. unfold usitc_fetch_error.
  destruct (requests_get w (USITC_REQUEST hs_code)) as [response|e'];
    [|by intros [= ->]].
  destruct (http_error response) as [e'|]; [by intros [= ->] |].
  destruct (BeautifulSoup w (text response)) as [soup|e']; [done | by intros [= ->]].
Qed.

Lemma scrape_usitc_tariffs_returns (w : World) (hs_code : string) :
  returns (scrape_usitc_tariffs w hs_code).
Proof. unfold scrape_usitc_tariffs. auto with returns. Qed.

Lemma add_to_watchlist_returns (w : World) (i : Inputs) : returns (add_to_watchlist w i).
Proof.
  unfold add_to_watchlist. apply returns_bind; [apply returns_show | intros _].
  destruct (add_clicked i); auto with returns.
Qed.

Lemma usitc_section_returns (w : World) (i : Inputs) : returns (usitc_section w i).
Proof.
  unfold usitc_section. case_match; [|apply returns_ret].
  apply returns_bind; [apply returns_show | intros _].
  apply returns_bind; [apply scrape_usitc_tariffs_returns | intros usitc_data].
  case_match; [|apply returns_show].
  apply returns_bind; [apply returns_show | intros _; apply add_to_watchlist_returns].
Qed.

Lemma usitc_section_failed (w : World) (i : Inputs) (e : Exn) (s : State) :
  truthy (query i) = true → country i = "United States" →
  usitc_fetch_error w (query i) = Some e →
  usitc_section w i s
  = (Returned (),
     {| ui := ui s ++ [Subheader "Live USITC Results";
                       StError ("Error fetching data from USITC: " +:+ exn_msg e);
                       StInfo "No results found or invalid HS code."];
        db := db s; net := net s ++ [HttpGet (USITC_REQUEST (query i))] |}).
Proof.
  intros Hq Hc He. unfold usitc_section.
  assert (truthy (query i) && String.eqb (country i) "United States" = true) as ->
    by (by rewrite Hq, Hc).
  rewrite run_bind. cbn [show].
  rewrite run_bind, (scrape_usitc_tariffs_failed _ _ e) by done.
  change (negb (df_empty empty_frame)) with false. cbv iota.
  unfold show. cbn [ui db net]. rewrite <- !app_assoc. reflexivity.
Qed.

Lemma sources_run (w : World) (i : Inputs) (s s1 : State) :
  usitc_section w i s = (Returned (), s1) →
  sources w i s
  = (Returned (),
     {| ui := ui s1 ++ wto_panel w ++ ustr_panel w; db := db s1;
        net := net s1 ++ [ReadExcel WTO_URL 1 6; HttpGet USTR_REQUEST] |}).
Proof.
  intros Husitc. unfold sources.
  rewrite run_bind, Husitc, run_bind, wto_section_run, ustr_section_run.
  cbn [ui db net]. by rewrite <- !app_assoc.
Qed.

(** C8. In every run the USITC panel ends without an exception; after it
    the WTO sheet and the USTR page are both fetched, and what the page
    shows for each of them is decided by the outcome of its own fetch
    alone.  A failed USITC fetch leaves an error message and no table for
    that source, a failed WTO or USTR fetch an error message under its own
    heading; none of them changes the panels of the other two. *)
Theorem sources_isolated (w : World) (i : Inputs) (s : State) :
  ∃ s1,
    usitc_section w i s = (Returned (), s1)
    ∧ sources w i s
      = (Returned (),
         {| ui := ui s1 ++ wto_panel w ++ ustr_panel w; db := db s1;
            net := net s1 ++ [ReadExcel WTO_URL 1 6; HttpGet USTR_REQUEST] |})
    ∧ (∀ e, truthy (query i) = true → country i = "United States" →
            usitc_fetch_error w (query i) = Some e →
            s1 = {| ui := ui s ++ [Subheader "Live USITC Results";
                                   StError ("Error fetching data from USITC: " +:+ exn_msg e);
                                   StInfo "No results found or invalid HS code."];
                    db := db s; net := net s ++ [HttpGet (USITC_REQUEST (query i))] |})
    ∧ (∀ e, read_excel w WTO_URL 1 6 = Raised e →
            wto_panel w = [Subheader "WTO Tariff Profiles (Preview)";
                           StError ("Failed to load WTO data: " +:+ exn_msg e)])
    ∧ (∀ e, requests_get w USTR_REQUEST = Raised e →
            ustr_panel w = [Subheader "Recent USTR Section 301 Updates";
                            StError ("Failed to load USTR updates: " +:+ exn_msg e)]).
Proof.
  destruct (usitc_section_returns w i s) as ([] & s1 & Husitc).
  exists s1. split; [done |]. split; [by apply sources_run |]. split; [|split].
  - intros e Hq Hc He. rewrite (usitc_section_failed w i e s Hq Hc He) in Husitc.
    by injection Husitc as <-.
  - intros e He. unfold wto_panel. by rewrite He.
  - intros e He. unfold ustr_panel. by rewrite He.
Qed.

Lemma sources_isolated_witness :
  let w := Fixture.bad_day in
  ui (sources w Fixture.green_tea init_state).2
  = [Subheader "Live USITC Results";
     StError ("Error fetching data from USITC: 500 Server Error: " +:+
              "Internal Server Error for url: https://hts.usitc.gov/?query=0902.10");
     StInfo "No results found or invalid HS code."]
    ++ wto_panel w ++ ustr_panel w.
Proof.
  intros w.
  destruct (sources_isolated w Fixture.green_tea init_state)
    as (s1 & _ & Hrun & Hfailed & _).
  rewrite Hrun.
  rewrite (Hfailed (default Fixture.timed_out (usitc_fetch_error w "0902.10"))
             eq_refl eq_refl eq_refl).
  reflexivity.
Defined.

(** ** The calls of a run and their timeouts *)

(** C7. The request of the link-list fetch carries no timeout, while the
    request of the table fetch carries ten seconds, and the connection to
    the mail relay is opened without a timeout: every HTTP request of a
    run is one of these two, every run issues the link-list request, and
    every connection to the relay a run opens has no timeout. *)
Theorem ustr_request_has_no_timeout (w : World) (i : Inputs) (s : State) :
  req_timeout USTR_REQUEST = None
  ∧ (∀ hs_code, req_timeout (USITC_REQUEST hs_code) = Some 10)
  ∧ ∃ calls,
      net (dashboard w i s).2 = net s ++ calls
      ∧ HttpGet {| req_url := USTR_URL; req_timeout := None |} ∈ calls
      ∧ (∀ r, HttpGet r ∈ calls →
              r = USTR_REQUEST ∨ ∃ hs_code, r = USITC_REQUEST hs_code)
      ∧ (∀ host port timeout, SmtpConnect host port timeout ∈ calls → timeout = None).
Proof.
  split; [reflexivity |]. split; [reflexivity |].
  destruct (dashboard_script_calls w i s) as (calls & Hnet & Hcalls).
  exists calls. split; [done |]. rewrite Forall_forall in Hcalls. split; [|split].
  - destruct (usitc_section_returns w i s) as ([] & s1 & Husitc).
    destruct (usitc_section_issues w i script_call (λ _ _ H, H) (λ _, eq_refl) s)
      as (calls1 & Hnet1 & _).
    rewrite Husitc in Hnet1. cbn [snd] in Hnet1.
    pose proof (sources_run w i s s1 Husitc) as Hsources.
    unfold dashboard in Hnet. rewrite run_bind, Hsources in Hnet.
    match type of Hnet with
    | net (_ ?s3).2 = _ =>
        destruct (rest_issues w i script_call (λ _ _ H, H) s3) as (calls3 & Hnet3 & _)
    end.
    rewrite Hnet3 in Hnet. cbn [net] in Hnet. rewrite Hnet1, <- !app_assoc in Hnet.
    apply app_inv_head in Hnet as <-.
    apply elem_of_app. right. apply elem_of_app. left.
    apply elem_of_cons. right. by apply list_elem_of_singleton.
  - intros r Hin. exact (Hcalls _ Hin).
  - intros host port timeout Hin. by destruct (Hcalls _ Hin) as (_ & _ & ->).
Qed.

(** C3. The link-list extractor answers an HTTP 500 response as it answers
    any other: it reports nothing, and returns what the body of the
    response holds, an empty list for a body without anchors and five
    links for the example page; the table extractor, on the same
    response, reports the error and returns the empty frame. *)
Theorem ustr_http_500_not_reported :
  requests_get Fixture.blank_day USTR_REQUEST = Returned (Fixture.server_error USTR_URL)
  ∧ status_code (Fixture.server_error USTR_URL) = 500
  ∧ get_ustr_updates Fixture.blank_day init_state
    = (Returned [], {| ui := []; db := []; net := [HttpGet USTR_REQUEST] |})
  ∧ get_ustr_updates Fixture.bad_day init_state
    = (Returned ["/a.pdf"; "/c.pdf"; "/d.pdf"; "/e.pdf"; "/f.pdf"],
       {| ui := []; db := []; net := [HttpGet USTR_REQUEST] |})
  ∧ scrape_usitc_tariffs Fixture.blank_day "0902.10" init_state
    = (Returned empty_frame,
       {| ui := [StError ("Error fetching data from USITC: 500 Server Error: " +:+
                          "Internal Server Error for url: https://hts.usitc.gov/?query=0902.10")];
          db := []; net := [HttpGet (USITC_REQUEST "0902.10")] |}).
Proof. repeat split; vm_compute; reflexivity. Qed.

(** ** The watchlist store *)

Lemma watchlist_entry_lookup (i : Inputs) :
  watchlist_entry i !! "query" = Some (FStr (query i))
  ∧ watchlist_entry i !! "country" = Some (FStr (country i))
  ∧ watchlist_entry i !! "tariff_type" = Some (FStr (tariff_type i))
  ∧ watchlist_entry i !! "timestamp" = Some SERVER_TIMESTAMP.
Proof. unfold watchlist_entry. repeat split; by simplify_map_eq. Qed.

Lemma new_document_createdAt (now : Z) (id : string) (i : Inputs) :
  createdAt (new_document now id (watchlist_entry i)) = Some now.
Proof.
  apply createdAt_Some. unfold new_document. cbn [doc_fields].
  rewrite lookup_fmap. by rewrite (proj2 (proj2 (proj2 (watchlist_entry_lookup i)))).
Qed.

Lemma new_document_row (now : Z) (id : string) (i : Inputs) :
  watch_row (new_document now id (watchlist_entry i))
  = {| row_query := Some (SStr (query i));
       row_country := Some (SStr (country i));
       row_tariff_type := Some (SStr (tariff_type i)) |}.
Proof.
  destruct (watchlist_entry_lookup i) as (Hq & Hc & Ht & _).
  unfold watch_row, new_document. cbn [doc_fields].
  rewrite !lookup_fmap, Hq, Hc, Ht. reflexivity.
Qed.

Lemma watchlist_add_Returned (w : World) (entry : gmap string Field) (s s1 : State) :
  watchlist_add w entry s = (Returned (), s1) ↔
  add_fault w = None
  ∧ (server_new_id w ∉ (doc_id <$> db s))
  ∧ s1 = {| ui := ui s;
            db := db s ++ [new_document (server_now w) (server_new_id w) entry];
            net := net s ++ [StoreAdd "watchlist" entry] |}.
Proof.
  rewrite watchlist_add_run. cbv zeta.
  destruct (add_fault w) as [e|]; [split; [intros [=] | intros ([=] & _)] |].
  destruct (collection_add _ _ _ _) as [c'|e] eqn:Hadd.
  - apply collection_add_Returned in Hadd as [Hid ->].
    split; [by intros [= <-] | by intros (_ & _ & ->)].
  - split; [done |]. intros (_ & Hid & _).
    assert (collection_add (server_now w) (server_new_id w) entry (db s)
            = Returned (db s ++ [new_document (server_now w) (server_new_id w) entry]))
      by (by apply collection_add_Returned).
    congruence.
Qed.

Lemma watchlist_stream_run (w : World) (s : State) :
  watchlist_stream w s =
    let s0 := {| ui := ui s; db := db s;
                 net := net s ++ [StoreQuery "watchlist" "timestamp"] |} in
    match query_fault w with
    | Some e => (Raised e, s0)
    | None => (Returned (order_by_desc "timestamp" (db s)), s0)
    end.
Proof. unfold watchlist_stream. unfold_M. by destruct (query_fault w). Qed.

Lemma watchlist_section_run (w : World) (s : State) :
  watchlist_section w s
  = (Returned (),
     {| ui := ui s ++
              [Subheader "My Watchlist";
               match query_fault w with
               | Some e => StError ("Error fetching watchlist: " +:+ exn_msg e)
               | None =>
                   match order_by_desc "timestamp" (db s) with
                   | [] => StInfo "No items in your watchlist yet."
                   | docs => StTable (watch_row <$> docs)
                   end
               end];
        db := db s;
        net := net s ++ [StoreQuery "watchlist" "timestamp"] |}).
Proof.
  unfold watchlist_section. rewrite run_bind. cbn [show]. unfold try_except.
  rewrite run_bind, watchlist_stream_run. cbv zeta. cbn [ui db net].
  destruct (query_fault w) as [e|].
  - unfold show. cbn [ui db net]. by rewrite <- app_assoc.
  - destruct (order_by_desc "timestamp" (db s)) as [|d docs];
      unfold show; cbn [ui db net fmap list_fmap]; by rewrite <- app_assoc.
Qed.

(** C9. The entry the script writes names the server's sentinel, not a
    time, under "timestamp", for every input; each write to the store a run
    issues is such an entry; and the document the store keeps for it has
    the server's clock at the write as its [createdAt]. *)
Theorem createdAt_assigned_by_store (w : World) (i : Inputs) (s : State) :
  watchlist_entry i !! "timestamp" = Some SERVER_TIMESTAMP
  ∧ (∃ calls, net (dashboard w i s).2 = net s ++ calls
       ∧ ∀ collection entry, StoreAdd collection entry ∈ calls →
           entry !! "timestamp" = Some SERVER_TIMESTAMP)
  ∧ (∀ s1, watchlist_add w (watchlist_entry i) s = (Returned (), s1) →
       ∃ d, db s1 = db s ++ [d]
            ∧ doc_fields d !! "timestamp" = Some (STime (server_now w))
            ∧ createdAt d = Some (server_now w)).
Proof.
  pose proof (watchlist_entry_lookup i) as (_ & _ & _ & Hts).
  split; [done |]. split.
  - destruct (dashboard_guarded w i s) as (calls & Hnet & Hcalls).
    exists calls. split; [done |]. intros collection entry Hin.
    rewrite Forall_forall in Hcalls.
    destruct (Hcalls _ Hin collection entry eq_refl) as (_ & -> & _). done.
  - intros s1 (_ & _ & ->)%watchlist_add_Returned. eexists. split; [reflexivity |].
    split; [|apply new_document_createdAt].
    apply createdAt_Some, new_document_createdAt.
Qed.

(** C5. When the store answers and every stored entry has its [createdAt],
    the listing returns all the stored entries, each once, newest first;
    for an empty store it is the empty list, and the page then shows the
    "no items" note and no error. *)
Theorem listing_newest_first (w : World) (s : State) :
  query_fault w = None →
  dated (db s) →
  ∃ docs,
    watchlist_stream w s
    = (Returned docs,
       {| ui := ui s; db := db s; net := net s ++ [StoreQuery "watchlist" "timestamp"] |})
    ∧ docs ≡ₚ db s
    ∧ StronglySorted newest_first docs
    ∧ (db s = [] → docs = [])
    ∧ watchlist_section w s
      = (Returned (),
         {| ui := ui s ++
                  [Subheader "My Watchlist";
                   match docs with
                   | [] => StInfo "No items in your watchlist yet."
                   | _ => StTable (watch_row <$> docs)
                   end];
            db := db s;
            net := net s ++ [StoreQuery "watchlist" "timestamp"] |}).
Proof.
  intros Hup Hwf. exists (order_by_desc "timestamp" (db s)).
  rewrite watchlist_stream_run, watchlist_section_run, Hup. cbv zeta.
  split; [done |]. split; [by apply order_by_desc_all |].
  split; [by apply order_by_desc_sorted |]. split; [by intros -> |].
  by destruct (order_by_desc "timestamp" (db s)).
Qed.

Lemma newest_is_first (c : list Document) (d : Document) (t : Z) :
  createdAt d = Some t →
  Forall (λ d', ∃ t', createdAt d' = Some t' ∧ t' < t) c →
  ∃ older, order_by_desc "timestamp" (c ++ [d]) = d :: older.
Proof.
  intros Hd Hc.
  assert (dated (c ++ [d])) as Hwf.
  { apply Forall_app. split; [|by repeat constructor].
    eapply Forall_impl; [exact Hc |]. by intros d' (t' & -> & _). }
  pose proof (order_by_desc_all _ Hwf) as Hperm.
  pose proof (order_by_desc_sorted _ Hwf) as Hsorted.
  destruct (order_by_desc "timestamp" (c ++ [d])) as [|h older].
  { apply Permutation_nil in Hperm. by destruct c. }
  assert (h ∈ c ++ [d]) as Hh by (rewrite <- Hperm; apply elem_of_cons; by left).
  assert (d ∈ h :: older) as Hin.
  { rewrite Hperm. apply elem_of_app. right. by apply list_elem_of_singleton. }
  apply elem_of_app in Hh as [Hh | ->%list_elem_of_singleton]; [|by exists older].
  apply elem_of_cons in Hin as [-> | Hin]; [by exists older |].
  apply StronglySorted_inv in Hsorted as [_ Hall].
  rewrite Forall_forall in Hall, Hc.
  destruct (Hall d Hin) as (t1 & t2 & Ht1 & Ht2 & Hle).
  destruct (Hc h Hh) as (t' & Ht' & Hlt). simplify_eq. lia.
Qed.


(** ** The notifier *)

Ltac alert_sent :=
  eexists _; split; [reflexivity |]; cbn [ui db net];
  rewrite ?app_nil_r; by repeat split.

Ltac alert_failed :=
  eexists _; split; [reflexivity |]; cbn [ui db net]; by repeat split.

(** [send_email_alert] never raises and never touches the store; it
    answers [True] and shows nothing when no step of the alert and no exit
    of its [with] block fails, and answers [False] and shows its one
    message otherwise. *)
Lemma send_email_alert_total (w : World) (subject body : string) (s : State) :
  ∃ s',
    send_email_alert w subject body s
    = (Returned (bool_decide (alert_error w subject body = None)), s')
    ∧ ui s' = ui s ++ match alert_error w subject body with
                      | Some e => [StError ("Failed to send email: " +:+ exn_msg e)]
                      | None => []
                      end
    ∧ db s' = db s.
Proof.
  unfold send_email_alert, smtp_exit, alert_error, session_error, secret.
  unfold_M.
  destruct (secrets w !! "sendgrid_user") as [from|]; [|alert_failed].
  destruct (secrets w !! "alert_recipient") as [to|]; [|alert_failed].
  destruct (smtp_connect w "smtp.sendgrid.net" 587) as [e|]; [alert_failed |].
  destruct (quit_error (smtp_quit w)) as [x|];
    (destruct (smtp_starttls w) as [e|]; [alert_failed |]);
    (destruct (secrets w !! "sendgrid_api_key") as [key|]; [|alert_failed]);
    (destruct (smtp_login w "apikey" key) as [e|]; [alert_failed |]);
    (destruct (smtp_send_message w _) as [e|]; [alert_failed |]);
    [alert_failed | alert_sent].
Qed.

(** The alert ends without an exception exactly when both addresses are
    configured, the relay is connected, every step of the session succeeds
    and so does the exit of the [with] block. *)
Lemma alert_error_None (w : World) (subject body : string) :
  alert_error w subject body = None ↔
  ∃ from to key,
    secrets w !! "sendgrid_user" = Some from
    ∧ secrets w !! "alert_recipient" = Some to
    ∧ smtp_connect w "smtp.sendgrid.net" 587 = None
    ∧ smtp_starttls w = None
    ∧ secrets w !! "sendgrid_api_key" = Some key
    ∧ smtp_login w "apikey" key = None
    ∧ smtp_send_message w {| msg_from := from; msg_to := to;
                             msg_subject := subject; msg_body := body |} = None
    ∧ quit_error (smtp_quit w) = None.
Proof.
  unfold alert_error, session_error. split.
  - destruct (secrets w !! "sendgrid_user") as [from|]; [|done].
    destruct (secrets w !! "alert_recipient") as [to|]; [|done].
    destruct (smtp_connect w "smtp.sendgrid.net" 587) as [e|] eqn:Hconnect; [done |].
    destruct (quit_error (smtp_quit w)) as [e|] eqn:Hquit; [done |].
    destruct (smtp_starttls w) as [e|] eqn:Htls; [done |].
    destruct (secrets w !! "sendgrid_api_key") as [key|]; [|done].
    destruct (smtp_login w "apikey" key) as [e|] eqn:Hlogin; [done |].
    intros Hsend. by exists from, to, key.
  - intros (from & to & key & -> & -> & -> & -> & -> & -> & -> & ->). done.
Qed.

(** C6. When the button was clicked and the write to the store succeeded,
    the save ends without an exception whatever happens to the alert: the
    notifier runs after "Added to watchlist." is shown, raises nothing,
    answers [False] and shows its own message when one of its steps or the
    exit of its [with] block fails; no "Failed to add to watchlist" message
    is shown, the store is the one the write left, and a listing of that
    store, by [watchlist_stream] and on the page of [watchlist_section],
    contains the new entry whenever the store answers the query. *)
Theorem failed_alert_keeps_add (w : World) (i : Inputs) (s s1 : State) :
  add_clicked i = true →
  watchlist_add w (watchlist_entry i)
    {| ui := ui s ++ [StButton "Add to Watchlist"]; db := db s; net := net s |}
  = (Returned (), s1) →
  let subject := "New Tariff Watchlist Item Added" in
  let added := new_document (server_now w) (server_new_id w) (watchlist_entry i) in
  ∃ s2,
    send_email_alert w subject (alert_body i)
      {| ui := ui s1 ++ [StSuccess "Added to watchlist."]; db := db s1; net := net s1 |}
    = (Returned (bool_decide (alert_error w subject (alert_body i) = None)), s2)
    ∧ add_to_watchlist w i s = (Returned (), s2)
    ∧ ui s2 = ui s ++ [StButton "Add to Watchlist"; StSuccess "Added to watchlist."]
                   ++ match alert_error w subject (alert_body i) with
                      | Some e => [StError ("Failed to send email: " +:+ exn_msg e)]
                      | None => []
                      end
    ∧ (alert_error w subject (alert_body i) = None ↔
       ∃ from to key,
         secrets w !! "sendgrid_user" = Some from
         ∧ secrets w !! "alert_recipient" = Some to
         ∧ smtp_connect w "smtp.sendgrid.net" 587 = None
         ∧ smtp_starttls w = None
         ∧ secrets w !! "sendgrid_api_key" = Some key
         ∧ smtp_login w "apikey" key = None
         ∧ smtp_send_message w {| msg_from := from; msg_to := to;
                                  msg_subject := subject;
                                  msg_body := alert_body i |} = None
         ∧ quit_error (smtp_quit w) = None)
    ∧ db s2 = db s1
    ∧ db s1 = db s ++ [added]
    ∧ added ∈ order_by_desc "timestamp" (db s2)
    ∧ ∀ w3 s3, query_fault w3 = None → db s3 = db s2 →
        ∃ docs,
          watchlist_stream w3 s3
          = (Returned docs,
             {| ui := ui s3; db := db s3;
                net := net s3 ++ [StoreQuery "watchlist" "timestamp"] |})
          ∧ added ∈ docs
          ∧ watchlist_section w3 s3
            = (Returned (),
               {| ui := ui s3 ++ [Subheader "My Watchlist"; StTable (watch_row <$> docs)];
                  db := db s3;
                  net := net s3 ++ [StoreQuery "watchlist" "timestamp"] |})
          ∧ {| row_query := Some (SStr (query i));
               row_country := Some (SStr (country i));
               row_tariff_type := Some (SStr (tariff_type i)) |}
            ∈ (watch_row <$> docs).
Proof.
  intros Hclick Hadd subject added.
  destruct (send_email_alert_total w subject (alert_body i)
              {| ui := ui s1 ++ [StSuccess "Added to watchlist."]; db := db s1;
                 net := net s1 |})
    as (s2 & Hsend & Hui & Hdb).
  exists s2. split; [done |]. cbn [ui db] in Hui, Hdb.
  assert (db s1 = db s ++ [added] ∧ ui s1 = ui s ++ [StButton "Add to Watchlist"])
    as [Hdb1 Hui1] by (by apply watchlist_add_Returned in Hadd as (_ & _ & ->)).
  assert (added ∈ order_by_desc "timestamp" (db s2)) as Hlisted.
  { apply order_by_desc_elem. split.
    - rewrite Hdb, Hdb1. apply elem_of_app. right. by apply list_elem_of_singleton.
    - exists (STime (server_now w)). apply createdAt_Some, new_document_createdAt. }
  split.
  { unfold add_to_watchlist. rewrite run_bind. cbn [show]. rewrite Hclick.
    unfold try_except. rewrite run_bind, Hadd, run_bind. cbn [show].
    rewrite run_bind. fold subject. rewrite Hsend. reflexivity. }
  split; [by rewrite Hui, Hui1, <- !app_assoc |].
  split; [apply alert_error_None |].
  split; [done |]. split; [done |]. split; [done |].
  intros w3 s3 Hup Hsame. exists (order_by_desc "timestamp" (db s2)).
  rewrite watchlist_stream_run, watchlist_section_run, Hup, Hsame. cbv zeta.
  split; [done |]. split; [done |].
  assert (watch_row added ∈ (watch_row <$> order_by_desc "timestamp" (db s2))) as Hrow
    by (by apply list_elem_of_fmap_2).
  unfold added in Hrow at 1. rewrite new_document_row in Hrow.
  split; [|done].
  destruct (order_by_desc "timestamp" (db s2)); [by apply not_elem_of_nil in Hlisted | done].
Qed.

(** ** The guard of the watchlist button *)

(** C10. Every write to the store that a run issues carries the query and
    the country of the inputs; the query is not empty, the country is
    "United States", the button was clicked, and the live lookup for the
    query returned a frame that is not empty. *)
Theorem watchlist_add_guard (w : World) (i : Inputs) (s : State) :
  ∃ calls,
    net (dashboard w i s).2 = net s ++ calls
    ∧ ∀ collection entry, StoreAdd collection entry ∈ calls →
        entry !! "query" = Some (FStr (query i))
        ∧ query i ≠ ""
        ∧ entry !! "country" = Some (FStr "United States")
        ∧ country i = "United States"
        ∧ add_clicked i = true
        ∧ ∃ usitc_data s0 s0',
            scrape_usitc_tariffs w (query i) s0 = (Returned usitc_data, s0')
            ∧ df_empty usitc_data = false.
Proof.
  destruct (dashboard_guarded w i s) as (calls & Hnet & Hcalls).
  exists calls. split; [done |]. intros collection entry Hin.
  rewrite Forall_forall in Hcalls.
  destruct (Hcalls _ Hin collection entry eq_refl)
    as (_ & -> & Hquery & Hcountry & Hclick & Hlookup).
  destruct (watchlist_entry_lookup i) as (Hq & Hc & _).
  rewrite Hq, Hc, Hcountry. repeat split; try done.
  intros Hempty. rewrite Hempty in Hquery. discriminate.
Qed.

(** ** Rules for [keeps], and the entries a run leaves in the store *)

Section Keeps.
Context (I : list Document → Prop).

Lemma keeps_ret {A} (a : A) : keeps I (mret a : M A).
Proof. by intros s. Qed.

Lemma keeps_raise {A} (e : Exn) : keeps I (raise e : M A).
Proof. by intros s. Qed.

Lemma keeps_lift {A} (o : Outcome A) : keeps I (lift o).
Proof. by intros s. Qed.

Lemma keeps_fallible (o : option Exn) : keeps I (fallible o).
Proof. by destruct o; intros s. Qed.

Lemma keeps_show (x : Widget) : keeps I (show x).
Proof. by intros s. Qed.

Lemma keeps_issue (c : Call) : keeps I (issue c).
Proof. by intros s. Qed.

Lemma keeps_get_db : keeps I get_db.
Proof. by intros s. Qed.

Lemma keeps_index {A} (l : list A) (i : nat) : keeps I (index l i).
Proof. unfold index. by destruct (l !! i); intros s. Qed.

Lemma keeps_bind {A B} (m : M A) (f : A → M B) :
  keeps I m → (∀ a, keeps I (f a)) → keeps I (m ≫= f).
Proof.
  intros Hm Hf s HI. rewrite run_bind. specialize (Hm s HI).
  destruct (m s) as [[a|e] s']; simpl in Hm; [by apply Hf | done].
Qed.

Lemma keeps_try_except {A} (body : M A) (handler : Exn → M A) :
  keeps I body → (∀ e, keeps I (handler e)) → keeps I (try_except body handler).
Proof.
  intros Hb Hh s HI. unfold try_except. specialize (Hb s HI).
  destruct (body s) as [[a|e] s']; simpl in Hb; [done | by apply Hh].
Qed.

Lemma keeps_with_exit {A} (body : M A) (exit : M ()) :
  keeps I body → keeps I exit → keeps I (with_exit body exit).
Proof.
  intros Hb Hx s HI. unfold with_exit. specialize (Hb s HI).
  destruct (body s) as [o s']; simpl in Hb. specialize (Hx s' Hb).
  by destruct (exit s') as [[[]|e] s''].
Qed.

Lemma keeps_for_each {A B} (l : list A) (body : B → A → M B) (acc : B) :
  (∀ acc x, keeps I (body acc x)) → keeps I (for_each l body acc).
Proof.
  intros Hb. revert acc. induction l as [|x l IH]; intros acc; simpl.
  - apply keeps_ret.
  - apply keeps_bind; [apply Hb | apply IH].
Qed.

End Keeps.

Ltac keeps_step :=
  first
    [ apply keeps_ret | apply keeps_raise | apply keeps_lift
    | apply keeps_fallible | apply keeps_show | apply keeps_issue
    | apply keeps_get_db | apply keeps_index
    | apply keeps_try_except
    | apply keeps_with_exit
    | apply keeps_for_each
    | apply keeps_bind
    | progress intros ].

Lemma watchlist_add_keeps_dated (w : World) (i : Inputs) :
  keeps dated (watchlist_add w (watchlist_entry i)).
Proof.
  intros s Hs. rewrite watchlist_add_run. cbv zeta.
  destruct (add_fault w) as [e|]; [done |].
  destruct (collection_add _ _ _ _) as [c'|e] eqn:Hadd; [|done].
  apply collection_add_Returned in Hadd as [_ ->]. cbn [snd db].
  apply Forall_app. split; [done |]. repeat constructor.
  rewrite new_document_createdAt. by eexists.
Qed.

Section Dated.
Context (w : World) (i : Inputs).

Lemma usitc_section_keeps_dated : keeps dated (usitc_section w i).
Proof.
  unfold usitc_section. case_match; [|apply keeps_ret].
  apply keeps_bind; [apply keeps_show | intros _].
  apply keeps_bind.
  { unfold scrape_usitc_tariffs, http_get, raise_for_status, usitc_row.
    repeat keeps_step. case_match; repeat keeps_step. }
  intros usitc_data. case_match; [|apply keeps_show].
  apply keeps_bind; [apply keeps_show | intros _].
  unfold add_to_watchlist. apply keeps_bind; [apply keeps_show | intros _].
  case_match; [|apply keeps_ret].
  apply keeps_try_except; [|intros; apply keeps_show].
  apply keeps_bind; [apply watchlist_add_keeps_dated | intros _].
  apply keeps_bind; [apply keeps_show | intros _].
  apply keeps_bind; [|intros; apply keeps_ret].
  unfold send_email_alert, smtp_exit, secret. repeat (keeps_step || case_match).
Qed.

Lemma wto_section_keeps_dated : keeps dated (wto_section w).
Proof. intros s Hs. by rewrite wto_section_run. Qed.

Lemma ustr_section_keeps_dated : keeps dated (ustr_section w).
Proof. intros s Hs. by rewrite ustr_section_run. Qed.

Lemma mock_section_keeps_dated : keeps dated (mock_section w i).
Proof. unfold mock_section. repeat (keeps_step || case_match). Qed.

Lemma watchlist_section_keeps_dated : keeps dated (watchlist_section w).
Proof. intros s Hs. by rewrite watchlist_section_run. Qed.

(** A run leaves every entry of the store with its [createdAt]. *)
Lemma dashboard_keeps_dated : keeps dated (dashboard w i).
Proof.
  unfold dashboard, sources.
  apply keeps_bind; [|intros _; apply keeps_bind; [|intros _]].
  - apply keeps_bind; [|intros _; apply keeps_bind; [|intros _]].
    + apply usitc_section_keeps_dated.
    + apply wto_section_keeps_dated.
    + apply ustr_section_keeps_dated.
  - apply mock_section_keeps_dated.
  - apply watchlist_section_keeps_dated.
Qed.

End Dated.

(** ** The properties at work on the example page *)

Import Fixture.

Lemma get_ustr_updates_links_witness :
  (get_ustr_updates first_run init_state).1
  = Returned ["/a.pdf"; "/c.pdf"; "/d.pdf"; "/e.pdf"; "/f.pdf"].
Proof.
  destruct (get_ustr_updates_links first_run init_state)
    as (links & s' & Hrun & _ & _ & Hpage).
  destruct (Hpage (ok USTR_URL) tea_page eq_refl eq_refl) as [Hlinks _].
  rewrite Hrun, Hlinks. reflexivity.
Defined.


Lemma listing_newest_first_witness :
  (watchlist_section first_run saved_twice).1 = Returned ()
  ∧ ui (watchlist_section first_run saved_twice).2
    = [Subheader "My Watchlist"; StTable [green_tea_row; green_tea_row]]
  ∧ ui (watchlist_section first_run init_state).2
    = [Subheader "My Watchlist"; StInfo "No items in your watchlist yet."].
Proof.
  assert (dated (db saved_twice)) as Hwf.
  { vm_compute. repeat constructor; by eexists. }
  destruct (listing_newest_first first_run saved_twice eq_refl Hwf)
    as (docs & Hstream & _ & _ & _ & Hshown).
  destruct (listing_newest_first first_run init_state eq_refl (Forall_nil_2 _))
    as (none & _ & _ & _ & Hnone & Hempty).
  rewrite Hshown, Hempty, (Hnone eq_refl).
  vm_compute in Hstream. injection Hstream as <-.
  repeat split.
Defined.

Lemma failed_alert_keeps_add_witness :
  (add_to_watchlist no_mail green_tea init_state).1 = Returned ()
  ∧ ui (add_to_watchlist no_mail green_tea init_state).2
    = [StButton "Add to Watchlist"; StSuccess "Added to watchlist.";
       StError "Failed to send email: connection refused"]
  ∧ (add_to_watchlist curt_relay green_tea init_state).1 = Returned ()
  ∧ ui (add_to_watchlist curt_relay green_tea init_state).2
    = [StButton "Add to Watchlist"; StSuccess "Added to watchlist.";
       StError "Failed to send email: (421, b'4.7.0 Try again later')"]
  ∧ ∃ s2 rows,
      add_to_watchlist curt_relay green_tea init_state = (Returned (), s2)
      ∧ ui (watchlist_section curt_relay {| ui := []; db := db s2; net := [] |}).2
        = [Subheader "My Watchlist"; StTable rows]
      ∧ green_tea_row ∈ rows.
Proof.
  destruct (failed_alert_keeps_add no_mail green_tea init_state
              (watchlist_add no_mail (watchlist_entry green_tea)
                 {| ui := [StButton "Add to Watchlist"]; db := []; net := [] |}).2
              eq_refl eq_refl)
    as (s2 & _ & Hrun & Hui & _).
  destruct (failed_alert_keeps_add curt_relay green_tea init_state
              (watchlist_add curt_relay (watchlist_entry green_tea)
                 {| ui := [StButton "Add to Watchlist"]; db := []; net := [] |}).2
              eq_refl eq_refl)
    as (s2' & _ & Hrun' & Hui' & _ & _ & _ & _ & Hlisting).
  rewrite Hrun, Hrun'. cbn [fst snd].
  split; [reflexivity |]. split; [exact Hui |].
  split; [reflexivity |]. split; [exact Hui' |].
  destruct (Hlisting curt_relay {| ui := []; db := db s2'; net := [] |} eq_refl eq_refl)
    as (docs & _ & _ & Hsection & Hrow).
  exists s2', (watch_row <$> docs). split; [reflexivity |].
  rewrite Hsection. split; [reflexivity | exact Hrow].
Defined.

Lemma createdAt_assigned_by_store_witness :
  ∃ d, db saved_once = db init_state ++ [d]
       ∧ doc_fields d !! "timestamp" = Some (STime 100)
       ∧ createdAt d = Some 100.
Proof.
  exact (proj2 (proj2 (createdAt_assigned_by_store first_run green_tea init_state))
           saved_once eq_refl).
Defined.

Lemma watchlist_add_guard_witness :
  StoreAdd "watchlist" (watchlist_entry green_tea)
    ∈ net (dashboard first_run green_tea init_state).2
  ∧ query green_tea ≠ ""
  ∧ country green_tea = "United States".
Proof.
  destruct (watchlist_add_guard first_run green_tea init_state)
    as (calls & Hnet & Hguard).
  change (net (dashboard first_run green_tea init_state).2 = calls) in Hnet.
  subst calls.
  assert (StoreAdd "watchlist" (watchlist_entry green_tea)
            ∈ net (dashboard first_run green_tea init_state).2) as Hin.
  { apply list_elem_of_In. vm_compute. right. left. reflexivity. }
  destruct (Hguard _ _ Hin) as (_ & Hquery & _ & Hcountry & _).
  by repeat split.
Defined.

(** * More of the script *)

(** ** The scrapers *)

Lemma scrape_usitc_tariffs_records (w : World) (hs_code : string) (s : State) :
  scrape_usitc_tariffs w hs_code s
  = (Returned (pd_DataFrame (usitc_records w hs_code)),
     {| ui := ui s ++ usitc_report w hs_code; db := db s;
        net := net s ++ [HttpGet (USITC_REQUEST hs_code)] |}).
Proof.
  rewrite scrape_usitc_tariffs_run. unfold usitc_records, usitc_report, usitc_fetch_error.
  destruct (requests_get w (USITC_REQUEST hs_code)) as [response|e]; [|done].
  destruct (http_error response) as [e|]; [done |].
  destruct (BeautifulSoup w (text response)) as [soup|e]; [|done].
  by rewrite app_nil_r.
Qed.

Lemma flat_map_nil {A B} (f : A → list B) (l : list A) :
  flat_map f l = [] ↔ Forall (λ x, f x = []) l.
Proof.
  induction l as [|x l IH]; simpl; [by split; [constructor|] |].
  split.
  - intros [Hx Hl]%app_eq_nil. constructor; [done | by apply IH].
  - intros [Hx Hl]%Forall_cons. rewrite Hx. by apply IH.
Qed.

Lemma fetchTableRecords_row_nil (minColumns : nat) (cells : list string) :
  fetchTableRecords_row minColumns cells = [] ↔ (length cells < minColumns)%nat.
Proof.
  unfold fetchTableRecords_row.
  destruct (minColumns <=? length cells)%nat eqn:Hlen.
  - apply Nat.leb_le in Hlen. split; [done | lia].
  - apply Nat.leb_gt in Hlen. done.
Qed.

Lemma pd_DataFrame_empty (results : list TariffRecord) :
  df_empty (pd_DataFrame results) = true ↔ results = [].
Proof. by destruct results. Qed.

(** X1. [scrape_wto_tariffs] never raises and reads the sheet once.  When
    the sheet was read it answers the first ten rows of it, all of them
    when there are at most ten, under the columns of the sheet, and shows
    nothing; when reading raised it answers the empty frame and shows the
    one message. *)
Theorem scrape_wto_tariffs_preview (w : World) (s : State) :
  ∃ preview report,
    scrape_wto_tariffs w s
    = (Returned preview,
       {| ui := ui s ++ report; db := db s; net := net s ++ [ReadExcel WTO_URL 1 6] |})
    ∧ (length (df_rows preview) ≤ 10)%nat
    ∧ match read_excel w WTO_URL 1 6 with
      | Returned df =>
          report = []
          ∧ df_columns preview = df_columns df
          ∧ df_rows preview `prefix_of` df_rows df
          ∧ length (df_rows preview) = (length (df_rows df) `min` 10)%nat
          ∧ ((length (df_rows df) ≤ 10)%nat → preview = df)
      | Raised e =>
          preview = empty_frame
          ∧ report = [StError ("Failed to load WTO data: " +:+ exn_msg e)]
      end.
Proof.
  rewrite scrape_wto_tariffs_run. cbv zeta.
  destruct (read_excel w WTO_URL 1 6) as [df|e].
  - exists (df_head 10 df), []. rewrite app_nil_r. split; [done |].
    unfold df_head. cbn [df_rows df_columns]. rewrite length_take.
    split; [lia |]. split; [done |]. split; [done |].
    split; [apply prefix_take |]. split; [lia |].
    intros Hlen. rewrite take_ge by done. by destruct df.
  - eexists _, [_]. split; [done |]. split; [simpl; lia | done].
Qed.

Lemma scrape_wto_tariffs_preview_witness :
  (∃ preview,
     (scrape_wto_tariffs Cases.strict_patterns init_state).1 = Returned preview
     ∧ df_columns preview = ["Country"]
     ∧ length (df_rows preview) = 10%nat
     ∧ length (df_rows Cases.long_sheet) = 12%nat)
  ∧ scrape_wto_tariffs Cases.no_sheet init_state
    = (Returned empty_frame,
       {| ui := [StError "Failed to load WTO data: connection timed out"];
          db := []; net := [ReadExcel WTO_URL 1 6] |}).
Proof.
  split.
  - destruct (scrape_wto_tariffs_preview Cases.strict_patterns init_state)
      as (preview & report & Hrun & _ & Hsheet).
    change (read_excel Cases.strict_patterns WTO_URL 1 6)
      with (Returned Cases.long_sheet) in Hsheet.
    destruct Hsheet as (_ & Hcols & _ & Hlen & _).
    exists preview. rewrite Hrun, Hcols, Hlen. by repeat split.
  - destruct (scrape_wto_tariffs_preview Cases.no_sheet init_state)
      as (preview & report & Hrun & _ & Hsheet).
    change (read_excel Cases.no_sheet WTO_URL 1 6)
      with (@Raised DataFrame Fixture.timed_out) in Hsheet.
    destruct Hsheet as [-> ->]. exact Hrun.
Defined.

Lemma usitc_records_error (w : World) (hs_code : string) (e : Exn) :
  usitc_fetch_error w hs_code = Some e → usitc_records w hs_code = [].
Proof.
  unfold usitc_fetch_error, usitc_records.
  destruct (requests_get w (USITC_REQUEST hs_code)) as [response|e']; [|done].
  destruct (http_error response) as [e'|]; [done |].
  by destruct (BeautifulSoup w (text response)).
Qed.

Lemma pd_DataFrame_shape (results : list TariffRecord) :
  results ≠ [] →
  df_columns (pd_DataFrame results) = tariff_columns
  ∧ Forall (λ r, length r = 5%nat) (df_rows (pd_DataFrame results))
  ∧ length (df_rows (pd_DataFrame results)) = length results.
Proof.
  destruct results as [|r results]; [done |]. intros _. cbn [pd_DataFrame df_columns df_rows].
  split; [done |]. split; [|by rewrite length_fmap].
  apply Forall_fmap, Forall_forall. by intros.
Qed.

(** X2. [scrape_usitc_tariffs] never raises and sends one request.  When
    the request, the status check or the parser raised, it answers the
    empty frame and shows the one message; otherwise it shows nothing.
    The frame it answers is empty exactly when no record was collected,
    which for a fetched page means that every selected row has fewer than
    five cells; a frame that is not empty has the five columns, five cells
    in each row and one row for each record. *)
Theorem scrape_usitc_tariffs_total (w : World) (hs_code : string) (s : State) :
  ∃ frame report,
    scrape_usitc_tariffs w hs_code s
    = (Returned frame,
       {| ui := ui s ++ report; db := db s;
          net := net s ++ [HttpGet (USITC_REQUEST hs_code)] |})
    ∧ frame = pd_DataFrame (usitc_records w hs_code)
    ∧ match usitc_fetch_error w hs_code with
      | Some e =>
          frame = empty_frame
          ∧ report = [StError ("Error fetching data from USITC: " +:+ exn_msg e)]
      | None => report = []
      end
    ∧ (df_empty frame = true ↔ usitc_records w hs_code = [])
    ∧ (df_empty frame = false →
         df_columns frame = tariff_columns
         ∧ Forall (λ r, length r = 5%nat) (df_rows frame)
         ∧ length (df_rows frame) = length (usitc_records w hs_code))
    ∧ (∀ response soup,
         requests_get w (USITC_REQUEST hs_code) = Returned response →
         http_error response = None →
         BeautifulSoup w (text response) = Returned soup →
         (df_empty frame = true
          ↔ Forall (λ row, (length (tag_find_all w row "td") < 5)%nat)
              (soup_select w soup "#search-results tbody tr"))).
Proof.
  exists (pd_DataFrame (usitc_records w hs_code)), (usitc_report w hs_code).
  split; [apply scrape_usitc_tariffs_records |]. split; [done |]. split.
  { unfold usitc_report. destruct (usitc_fetch_error w hs_code) as [e|] eqn:He; [|done].
    by rewrite (usitc_records_error w hs_code e He). }
  split; [apply pd_DataFrame_empty |]. split.
  - intros Hfull. apply pd_DataFrame_shape. intros Hnil.
    apply pd_DataFrame_empty in Hnil. congruence.
  - intros response soup Hget Hstatus Hparse.
    rewrite pd_DataFrame_empty. unfold usitc_records.
    rewrite Hget, Hstatus, Hparse, flat_map_nil.
    apply Forall_iff. intros row. rewrite fetchTableRecords_row_nil.
    unfold cell_texts. by rewrite length_fmap.
Qed.

Lemma scrape_usitc_tariffs_total_witness :
  (scrape_usitc_tariffs Cases.short_day "0902" init_state).1 = Returned empty_frame
  ∧ ui (scrape_usitc_tariffs Cases.short_day "0902" init_state).2 = []
  ∧ length (df_rows (pd_DataFrame (usitc_records Fixture.first_run "0902.10"))) = 2%nat.
Proof.
  destruct (scrape_usitc_tariffs_total Cases.short_day "0902" init_state)
    as (frame & report & Hrun & Hframe & Hreport & _ & _ & Hrows).
  destruct (scrape_usitc_tariffs_total Fixture.first_run "0902.10" init_state)
    as (frame' & report' & _ & -> & _ & _ & Hshape & _).
  rewrite Hrun. cbn [fst snd ui].
  change (usitc_fetch_error Cases.short_day "0902") with (@None Exn) in Hreport.
  rewrite Hreport.
  assert (df_empty frame = true) as Hempty.
  { apply (Hrows (Fixture.ok (USITC_URL +:+ "0902")) Cases.short_page eq_refl eq_refl eq_refl).
    repeat constructor. }
  split.
  - rewrite Hframe in Hempty |- *. apply pd_DataFrame_empty in Hempty. by rewrite Hempty.
  - split; [done |]. by rewrite (proj2 (proj2 (Hshape eq_refl))).
Defined.

(** X3. [get_ustr_updates] never raises and sends one request.  It shows
    its one message, and answers the empty list, exactly when the request
    or the parser raised; when the page was fetched and parsed it shows
    nothing. *)
Theorem get_ustr_updates_total (w : World) (s : State) :
  ∃ links report,
    get_ustr_updates w s
    = (Returned links,
       {| ui := ui s ++ report; db := db s; net := net s ++ [HttpGet USTR_REQUEST] |})
    ∧ (report = []
       ∨ ∃ e, links = []
              ∧ report = [StError ("Failed to load USTR updates: " +:+ exn_msg e)])
    ∧ (∀ e, requests_get w USTR_REQUEST = Raised e →
            links = [] ∧ report = [StError ("Failed to load USTR updates: " +:+ exn_msg e)])
    ∧ (∀ response e,
         requests_get w USTR_REQUEST = Returned response →
         BeautifulSoup w (text response) = Raised e →
         links = [] ∧ report = [StError ("Failed to load USTR updates: " +:+ exn_msg e)])
    ∧ (∀ response soup,
         requests_get w USTR_REQUEST = Returned response →
         BeautifulSoup w (text response) = Returned soup →
         report = []).
Proof.
  rewrite get_ustr_updates_run. cbv zeta.
  destruct (requests_get w USTR_REQUEST) as [response|e] eqn:Hget.
  - destruct (BeautifulSoup w (text response)) as [soup|e] eqn:Hparse.
    + eexists _, []. rewrite app_nil_r. split; [done |]. split; [by left |].
      split; [done |]. split; [|done].
      intros response' e [= <-] Hparse'. congruence.
    + eexists [], [_]. split; [done |]. split; [right; by eexists |].
      split; [done |]. split.
      * intros response' e' [= <-] Hparse'. rewrite Hparse in Hparse'.
        by injection Hparse' as <-.
      * intros response' soup [= <-] Hparse'. congruence.
  - eexists [], [_]. split; [done |]. split; [right; by eexists |].
    split; [by intros e' [= <-] |]. split; intros; discriminate.
Qed.

Lemma get_ustr_updates_total_witness :
  let w := Cases.with_faults Fixture.first_run (Returned Fixture.sheet) None None Cases.compile in
  ∃ links report,
    get_ustr_updates w init_state
    = (Returned links, {| ui := report; db := []; net := [HttpGet USTR_REQUEST] |})
    ∧ report = [].
Proof.
  intros w.
  destruct (get_ustr_updates_total w init_state)
    as (links & report & Hrun & _ & _ & _ & Hok).
  exists links, report. split; [exact Hrun |].
  exact (Hok (Fixture.ok USTR_URL) Fixture.tea_page eq_refl eq_refl).
Defined.

(** ** The mail alert *)

Ltac in_calls :=
  repeat match goal with
         | H : _ ∈ [] |- _ => by apply not_elem_of_nil in H
         | H : _ ∈ _ :: _ |- _ => apply elem_of_cons in H as [H | H]; [try discriminate H |]
         end.

Ltac in_list :=
  repeat first [apply list_elem_of_here | apply list_elem_of_further].

Ltac quit_shape :=
  first [ left; split; [by intros ?; in_calls | reflexivity]
        | right; split; [in_list | reflexivity] ].

Ltac calls_case steps :=
  eexists _, _, _; split; [reflexivity |]; cbn [net];
  rewrite <- ?app_assoc; split; [first [reflexivity | by rewrite app_nil_r] |];
  exists steps; split; [by eexists | quit_shape].

(** The calls of the alert are the first steps of a session, followed by
    QUIT when the relay was connected. *)
Lemma send_email_alert_calls (w : World) (subject body : string) (s : State) :
  ∃ sent s' calls,
    send_email_alert w subject body s = (Returned sent, s')
    ∧ net s' = net s ++ calls
    ∧ alert_calls w subject body calls.
Proof.
  unfold send_email_alert, smtp_exit, alert_calls, alert_session, alert_message, secret.
  unfold_M.
  destruct (secrets w !! "sendgrid_user") as [from|]; [|calls_case (@nil Call)].
  destruct (secrets w !! "alert_recipient") as [to|]; [|calls_case (@nil Call)].
  destruct (smtp_connect w "smtp.sendgrid.net" 587) as [e|];
    [calls_case [SmtpConnect "smtp.sendgrid.net" 587 None] |].
  destruct (smtp_starttls w) as [e|].
  { destruct (quit_error (smtp_quit w));
      calls_case [SmtpConnect "smtp.sendgrid.net" 587 None; SmtpStartTls]. }
  destruct (secrets w !! "sendgrid_api_key") as [key|].
  2: { destruct (quit_error (smtp_quit w));
         calls_case [SmtpConnect "smtp.sendgrid.net" 587 None; SmtpStartTls]. }
  destruct (smtp_login w "apikey" key) as [e|].
  { destruct (quit_error (smtp_quit w));
      calls_case [SmtpConnect "smtp.sendgrid.net" 587 None; SmtpStartTls;
                  SmtpLogin "apikey" key]. }
  destruct (smtp_send_message w _) as [e|]; destruct (quit_error (smtp_quit w));
    calls_case [SmtpConnect "smtp.sendgrid.net" 587 None; SmtpStartTls;
                SmtpLogin "apikey" key;
                SmtpSend {| msg_from := from; msg_to := to;
                            msg_subject := subject; msg_body := body |}].
Qed.

Ltac connected_iff :=
  split;
  [ intros Hin; first [by in_calls | by repeat split; try eexists]
  | intros (Hu & Hr & Hc);
    first [by in_list | by destruct Hu | by destruct Hr | discriminate Hc] ].

Ltac session_case steps quit :=
  eexists _, _, steps, quit; split; [reflexivity |]; cbn [net ui];
  rewrite <- ?app_assoc; split; [first [reflexivity | by rewrite app_nil_r] |];
  split; [by eexists |];
  split; [quit_shape |];
  split; [by intros [? | ?] |];
  split; [connected_iff |];
  split; [by intros ? ? ?; in_calls; simplify_eq |];
  split; [intros ? ?; in_calls; simplify_eq; by repeat split; eauto |].

(** X4. [send_email_alert] talks to the relay in one order: connect,
    STARTTLS, login, send, stops these steps at the first one that raises,
    and, once the relay is connected, leaves its [with] block with QUIT
    whether a step raised or not.  It makes no call when the sender or the
    recipient is not configured; it calls STARTTLS exactly when both are
    configured and the relay is connected; it logs in only after STARTTLS
    succeeded, as "apikey" with the configured key; it hands over a message
    only after the login succeeded, from the configured sender to the
    configured recipient with the given subject and body.  It answers
    [True] exactly when the relay took the message and the exit did not
    raise: when the relay took the message and then answered QUIT with a
    code other than 221, it answers [False] and shows "Failed to send
    email" with that code and reply. *)
Theorem send_email_alert_session (w : World) (subject body : string) (s : State) :
  ∃ sent s' steps quit,
    send_email_alert w subject body s = (Returned sent, s')
    ∧ net s' = net s ++ steps ++ quit
    ∧ steps `prefix_of` alert_session w subject body
    ∧ ((SmtpStartTls ∉ steps) ∧ quit = [] ∨ SmtpStartTls ∈ steps ∧ quit = [SmtpQuit])
    ∧ (secrets w !! "sendgrid_user" = None ∨ secrets w !! "alert_recipient" = None →
       steps = [])
    ∧ (SmtpStartTls ∈ steps ↔
       is_Some (secrets w !! "sendgrid_user")
       ∧ is_Some (secrets w !! "alert_recipient")
       ∧ smtp_connect w "smtp.sendgrid.net" 587 = None)
    ∧ (∀ user password, SmtpLogin user password ∈ steps →
         smtp_starttls w = None
         ∧ user = "apikey"
         ∧ secrets w !! "sendgrid_api_key" = Some password)
    ∧ (∀ m, SmtpSend m ∈ steps →
         (∃ key, secrets w !! "sendgrid_api_key" = Some key
                 ∧ smtp_login w "apikey" key = None)
         ∧ secrets w !! "sendgrid_user" = Some (msg_from m)
         ∧ secrets w !! "alert_recipient" = Some (msg_to m)
         ∧ msg_subject m = subject
         ∧ msg_body m = body)
    ∧ (sent = true ↔
       (∃ m, SmtpSend m ∈ steps ∧ smtp_send_message w m = None)
       ∧ quit_error (smtp_quit w) = None)
    ∧ (∀ m code reply,
         SmtpSend m ∈ steps → smtp_send_message w m = None →
         smtp_quit w = Returned (code, reply) → code ≠ 221 →
         sent = false
         ∧ ui s' = ui s ++ [StError ("Failed to send email: (" +:+ pretty code
                                     +:+ ", " +:+ reply +:+ ")")]).
Proof.
  unfold send_email_alert, smtp_exit, alert_session, alert_message, secret. unfold_M.
  destruct (secrets w !! "sendgrid_user") as [from|] eqn:Hfrom.
  2: { session_case (@nil Call) (@nil Call).
       split; [split; [done | intros [(m & Hm & _) _]; in_calls] |].
       intros m code reply Hm. in_calls. }
  destruct (secrets w !! "alert_recipient") as [to|] eqn:Hto.
  2: { session_case (@nil Call) (@nil Call).
       split; [split; [done | intros [(m & Hm & _) _]; in_calls] |].
       intros m code reply Hm. in_calls. }
  destruct (smtp_connect w "smtp.sendgrid.net" 587) as [e|] eqn:Hconnect.
  { session_case [SmtpConnect "smtp.sendgrid.net" 587 None] (@nil Call).
    split; [split; [done | intros [(m & Hm & _) _]; in_calls] |].
    intros m code reply Hm. in_calls. }
  destruct (smtp_starttls w) as [e|] eqn:Htls.
  { destruct (quit_error (smtp_quit w)) as [x|] eqn:Hquit;
      session_case [SmtpConnect "smtp.sendgrid.net" 587 None; SmtpStartTls] [SmtpQuit];
      (split; [split; [done | intros [(m & Hm & _) _]; in_calls] |]);
      intros m code reply Hm; in_calls. }
  destruct (secrets w !! "sendgrid_api_key") as [key|] eqn:Hkey.
  2: { destruct (quit_error (smtp_quit w)) as [x|] eqn:Hquit;
         session_case [SmtpConnect "smtp.sendgrid.net" 587 None; SmtpStartTls] [SmtpQuit];
         (split; [split; [done | intros [(m & Hm & _) _]; in_calls] |]);
         intros m code reply Hm; in_calls. }
  destruct (smtp_login w "apikey" key) as [e|] eqn:Hlogin.
  { destruct (quit_error (smtp_quit w)) as [x|] eqn:Hquit;
      session_case [SmtpConnect "smtp.sendgrid.net" 587 None; SmtpStartTls;
                    SmtpLogin "apikey" key] [SmtpQuit];
      (split; [split; [done | intros [(m & Hm & _) _]; in_calls] |]);
      intros m code reply Hm; in_calls. }
  destruct (smtp_send_message w _) as [e|] eqn:Hsend.
  { destruct (quit_error (smtp_quit w)) as [x|] eqn:Hquit;
      session_case [SmtpConnect "smtp.sendgrid.net" 587 None; SmtpStartTls;
                    SmtpLogin "apikey" key;
                    SmtpSend {| msg_from := from; msg_to := to;
                                msg_subject := subject; msg_body := body |}] [SmtpQuit];
      (split; [split; [done | intros [(m & Hm & Hm') _]; in_calls; simplify_eq] |]);
      intros m code reply Hm Hm'; in_calls; simplify_eq. }
  destruct (quit_error (smtp_quit w)) as [x|] eqn:Hquit;
    session_case [SmtpConnect "smtp.sendgrid.net" 587 None; SmtpStartTls;
                  SmtpLogin "apikey" key;
                  SmtpSend {| msg_from := from; msg_to := to;
                              msg_subject := subject; msg_body := body |}] [SmtpQuit].
  - split; [split; [done | by intros [_ ?]] |].
    intros m code reply _ _ Hreply Hcode. rewrite Hreply in Hquit. cbn in Hquit.
    rewrite bool_decide_eq_true_2 in Hquit by done. injection Hquit as <-.
    by split.
  - split.
    + split; [intros _ | done]. split; [|done]. eexists. split; [|exact Hsend]. in_list.
    + intros m code reply _ _ Hreply Hcode. rewrite Hreply in Hquit. cbn in Hquit.
      by rewrite bool_decide_eq_true_2 in Hquit by done.
Qed.

Lemma send_email_alert_session_witness :
  ∃ s', send_email_alert Fixture.curt_relay "subject" "body" init_state
        = (Returned false, s')
        ∧ net s' = [SmtpConnect "smtp.sendgrid.net" 587 None; SmtpStartTls;
                    SmtpLogin "apikey" "key";
                    SmtpSend {| msg_from := "alerts@example.org";
                                msg_to := "me@example.org";
                                msg_subject := "subject"; msg_body := "body" |};
                    SmtpQuit]
        ∧ ui s' = [StError "Failed to send email: (421, b'4.7.0 Try again later')"].
Proof.
  destruct (send_email_alert_session Fixture.curt_relay "subject" "body" init_state)
    as (sent & s' & steps & quit & Hrun & _).
  vm_compute in Hrun. injection Hrun as <- <-. by eexists.
Defined.

(** ** The watchlist button *)

Lemma watchlist_add_Raised (w : World) (entry : gmap string Field) (e : Exn) (s s1 : State) :
  watchlist_add w entry s = (Raised e, s1) ↔
  (add_fault w = Some e
   ∨ add_fault w = None
     ∧ server_new_id w ∈ (doc_id <$> db s)
     ∧ e = {| exn_class := "AlreadyExists";
              exn_msg := "Document already exists: " +:+ server_new_id w |})
  ∧ s1 = {| ui := ui s; db := db s; net := net s ++ [StoreAdd "watchlist" entry] |}.
Proof.
  rewrite watchlist_add_run. cbv zeta. unfold collection_add.
  destruct (add_fault w) as [e'|].
  - split; [intros [= -> <-]; by split; [left |] |].
    intros [[[= ->] | ([=] & _)] ->]. done.
  - case_bool_decide as Hid.
    + split; [intros [= <- <-]; by split; [right |] |].
      intros [[[=] | (_ & _ & ->)] ->]. done.
    + split; [intros [=] |]. intros [[[=] | (_ & Hin & _)] _]. done.
Qed.

Lemma add_to_watchlist_run (w : World) (i : Inputs) (s : State) :
  let s0 := {| ui := ui s ++ [StButton "Add to Watchlist"]; db := db s; net := net s |} in
  add_to_watchlist w i s =
    if add_clicked i then
      match watchlist_add w (watchlist_entry i) s0 with
      | (Returned _, s1) =>
          (Returned (),
           (send_email_alert w "New Tariff Watchlist Item Added" (alert_body i)
              {| ui := ui s1 ++ [StSuccess "Added to watchlist."];
                 db := db s1; net := net s1 |}).2)
      | (Raised e, s1) =>
          (Returned (),
           {| ui := ui s1 ++ [StError ("Failed to add to watchlist: " +:+ exn_msg e)];
              db := db s1; net := net s1 |})
      end
    else (Returned (), s0).
Proof.
  cbv zeta. unfold add_to_watchlist. rewrite run_bind. cbn [show].
  destruct (add_clicked i); [|done]. unfold try_except. rewrite run_bind.
  destruct (watchlist_add w (watchlist_entry i) _) as [[[]|e] s1]; [|done].
  rewrite run_bind. cbn [show]. rewrite run_bind.
  destruct (send_email_alert_total w "New Tariff Watchlist Item Added" (alert_body i)
              {| ui := ui s1 ++ [StSuccess "Added to watchlist."]; db := db s1;
                 net := net s1 |}) as (s2 & -> & _).
  done.
Qed.

(** X5. When the button was clicked and the write to the store raises,
    because the store refused it or because the new id is taken, the save
    ends without an exception, shows "Failed to add to watchlist" with the
    text of the exception and no success message, leaves the store as it
    was, and makes no call to the mail relay. *)
Theorem failed_add_sends_no_alert (w : World) (i : Inputs) (e : Exn) (s : State) :
  add_clicked i = true →
  (add_fault w = Some e
   ∨ add_fault w = None
     ∧ server_new_id w ∈ (doc_id <$> db s)
     ∧ e = {| exn_class := "AlreadyExists";
              exn_msg := "Document already exists: " +:+ server_new_id w |}) →
  add_to_watchlist w i s
  = (Returned (),
     {| ui := ui s ++ [StButton "Add to Watchlist";
                       StError ("Failed to add to watchlist: " +:+ exn_msg e)];
        db := db s;
        net := net s ++ [StoreAdd "watchlist" (watchlist_entry i)] |}).
Proof.
  intros Hclick Hfault. rewrite add_to_watchlist_run, Hclick. cbv zeta.
  set (s0 := {| ui := ui s ++ [StButton "Add to Watchlist"]; db := db s; net := net s |}).
  assert (watchlist_add w (watchlist_entry i) s0
          = (Raised e, {| ui := ui s0; db := db s0;
                          net := net s0 ++ [StoreAdd "watchlist" (watchlist_entry i)] |}))
    as -> by (by apply watchlist_add_Raised).
  cbn [ui db net s0]. by rewrite <- app_assoc.
Qed.

Lemma failed_add_sends_no_alert_witness :
  ui (add_to_watchlist Cases.store_down Fixture.green_tea init_state).2
  = [StButton "Add to Watchlist";
     StError "Failed to add to watchlist: 503 store unavailable"]
  ∧ db (add_to_watchlist Fixture.second_run
          {| query := "0902.10"; country := "United States"; tariff_type := "Applied";
             add_clicked := true |}
          {| ui := []; db := [new_document 100 "doc2" ∅]; net := [] |}).2
    = [new_document 100 "doc2" ∅].
Proof.
  split.
  - by rewrite (failed_add_sends_no_alert Cases.store_down Fixture.green_tea
                  Cases.unavailable init_state eq_refl (or_introl eq_refl)).
  - erewrite failed_add_sends_no_alert; [done.. |].
    right. split; [done |]. split; [|done].
    apply list_elem_of_singleton. done.
Defined.

(** What the button leaves behind: on the page the button and then only
    success and error messages; in the store nothing or the new entry; in
    the trace nothing, or the write followed by the calls of the alert. *)
Lemma add_to_watchlist_effect (w : World) (i : Inputs) (s : State) :
  ∃ s' more calls,
    add_to_watchlist w i s = (Returned (), s')
    ∧ ui s' = ui s ++ StButton "Add to Watchlist" :: more
    ∧ Forall (λ x, ∃ t, x = StSuccess t ∨ x = StError t) more
    ∧ net s' = net s ++ calls
    ∧ (calls = []
       ∨ ∃ session, calls = StoreAdd "watchlist" (watchlist_entry i) :: session
                    ∧ alert_calls w "New Tariff Watchlist Item Added" (alert_body i)
                        session)
    ∧ (db s' = db s
       ∨ db s' = db s ++ [new_document (server_now w) (server_new_id w) (watchlist_entry i)]).
Proof.
  rewrite add_to_watchlist_run. cbv zeta.
  destruct (add_clicked i).
  2: { eexists _, [], []. cbn [ui db net]. rewrite app_nil_r.
       repeat split; [constructor | by left | by left]. }
  destruct (watchlist_add w (watchlist_entry i) _) as [[[]|e] s1] eqn:Hadd.
  - apply watchlist_add_Returned in Hadd as (_ & _ & ->).
    match goal with |- context [send_email_alert w ?a ?b ?s0] =>
      destruct (send_email_alert_total w a b s0) as (s2 & Hsend & Hui & Hdb);
      destruct (send_email_alert_calls w a b s0)
        as (sent & s2' & session & Hsend' & Hnet & Hcalls)
    end.
    rewrite Hsend in Hsend'. injection Hsend' as _ <-.
    rewrite Hsend. cbn [snd ui db net] in *.
    eexists s2, _, _. split; [done |]. rewrite Hui, Hnet, Hdb, <- !app_assoc.
    split; [reflexivity |]. split.
    + constructor; [by eexists; left |].
      destruct (alert_error _ _ _); repeat constructor. by eexists; right.
    + split; [reflexivity |]. split; [right; by eexists | by right].
  - apply watchlist_add_Raised in Hadd as (_ & ->). cbn [ui db net].
    eexists _, [_], [_]. rewrite <- !app_assoc.
    repeat split; [repeat constructor; by eexists; right | | by left].
    right. eexists []. split; [done |]. exists []. split; [by eexists |].
    left. split; [|done]. by intros ?%not_elem_of_nil.
Qed.

Lemma usitc_section_run (w : World) (i : Inputs) (s : State) :
  let fetched :=
    {| ui := ui s ++ Subheader "Live USITC Results" :: usitc_report w (query i);
       db := db s; net := net s ++ [HttpGet (USITC_REQUEST (query i))] |} in
  let usitc_data := pd_DataFrame (usitc_records w (query i)) in
  usitc_section w i s =
    if truthy (query i) && String.eqb (country i) "United States" then
      if df_empty usitc_data then
        (Returned (),
         {| ui := ui fetched ++ [StInfo "No results found or invalid HS code."];
            db := db s; net := net fetched |})
      else
        add_to_watchlist w i
          {| ui := ui fetched ++ [StDataframe usitc_data]; db := db s; net := net fetched |}
    else (Returned (), s).
Proof.
  cbv zeta. unfold usitc_section.
  destruct (truthy (query i) && String.eqb (country i) "United States"); [|done].
  rewrite run_bind. cbn [show]. rewrite run_bind, scrape_usitc_tariffs_records.
  cbn [ui db net]. rewrite <- app_assoc. cbn [app].
  destruct (df_empty (pd_DataFrame (usitc_records w (query i)))); cbn [negb]; [done |].
  rewrite run_bind. done.
Qed.

(** X6. The USITC panel never raises.  For an empty query or a country
    other than "United States" it shows nothing and leaves the state as it
    is.  Otherwise it sends the one request; it offers the button exactly
    when the lookup collected a record, and shows the "No results" note
    exactly when it collected none. *)
Theorem usitc_panel_cases (w : World) (i : Inputs) (s : State) :
  let reached := truthy (query i) && String.eqb (country i) "United States" in
  ∃ s' shown,
    usitc_section w i s = (Returned (), s')
    ∧ ui s' = ui s ++ shown
    ∧ (reached = false → s' = s)
    ∧ (StButton "Add to Watchlist" ∈ shown
       ↔ reached = true ∧ usitc_records w (query i) ≠ [])
    ∧ (StInfo "No results found or invalid HS code." ∈ shown
       ↔ reached = true ∧ usitc_records w (query i) = [])
    ∧ (reached = true →
       ∃ calls, net s' = net s ++ HttpGet (USITC_REQUEST (query i)) :: calls).
Proof.
  cbv zeta. rewrite usitc_section_run. cbv zeta.
  destruct (truthy (query i) && String.eqb (country i) "United States").
  2: { exists s, []. rewrite app_nil_r. split; [done |]. split; [done |].
       split; [done |]. split; [|split; [|done]].
       - split; [by intros ?%not_elem_of_nil | by intros [? _]].
       - split; [by intros ?%not_elem_of_nil | by intros [? _]]. }
  destruct (df_empty (pd_DataFrame (usitc_records w (query i)))) eqn:Hempty.
  - apply pd_DataFrame_empty in Hempty.
    eexists _, _. split; [reflexivity |]. cbn [ui db net]. rewrite <- app_assoc.
    split; [reflexivity |]. split; [done |]. rewrite Hempty.
    split; [|split].
    + split; [|by intros [_ ?]].
      intros Hin. exfalso. revert Hin. unfold usitc_report.
      destruct (usitc_fetch_error w (query i)); cbn; intros Hin; in_calls.
    + split; [done |]. intros _. apply elem_of_cons. right. apply elem_of_app. right.
      by apply list_elem_of_singleton.
    + intros _. by exists [].
  - assert (usitc_records w (query i) ≠ []) as Hfull.
    { intros Hnil%pd_DataFrame_empty. congruence. }
    assert (usitc_report w (query i) = []) as Hreport.
    { unfold usitc_report. destruct (usitc_fetch_error w (query i)) as [e|] eqn:He; [|done].
      by apply usitc_records_error in He. }
    match goal with |- context [add_to_watchlist w i ?s0] =>
      destruct (add_to_watchlist_effect w i s0)
        as (s' & more & calls & Hrun & Hui & Hmore & Hnet & _)
    end.
    cbn [ui db net] in Hui, Hnet. rewrite Hreport in Hui.
    exists s'. eexists. split; [exact Hrun |]. rewrite Hui, <- !app_assoc.
    split; [reflexivity |]. split; [done |]. split; [|split].
    + split; [done |]. intros _. cbn. apply elem_of_cons. right. apply elem_of_cons. right.
      apply elem_of_cons. by left.
    + split; [|by intros [_ ?]].
      intros Hin. exfalso. cbn in Hin. in_calls.
      rewrite Forall_forall in Hmore. destruct (Hmore _ Hin) as (t & [? | ?]); done.
    + intros _. exists calls. by rewrite Hnet, <- app_assoc.
Qed.

Lemma usitc_panel_cases_witness :
  usitc_section Cases.short_day Cases.not_clicked init_state
  = (Returned (),
     {| ui := [Subheader "Live USITC Results";
               StInfo "No results found or invalid HS code."];
        db := []; net := [HttpGet (USITC_REQUEST "0902.10")] |})
  ∧ usitc_section Fixture.first_run Cases.no_query init_state = (Returned (), init_state).
Proof.
  split.
  - destruct (usitc_panel_cases Cases.short_day Cases.not_clicked init_state)
      as (s' & shown & Hrun & _).
    rewrite Hrun. vm_compute in Hrun. by injection Hrun as <-.
  - destruct (usitc_panel_cases Fixture.first_run Cases.no_query init_state)
      as (s' & shown & Hrun & _ & Hskip & _).
    by rewrite Hrun, (Hskip eq_refl).
Defined.

(** ** The mock table *)

Lemma mock_section_run (w : World) (i : Inputs) (s : State) :
  mock_section w i s =
    match mock_filtered w i with
    | Raised e => (Raised e, s)
    | Returned f =>
        (Returned (), {| ui := ui s ++ mock_panel f; db := db s; net := net s |})
    end.
Proof.
  unfold mock_section, mock_filtered, mock_panel. fold (selected i).
  rewrite run_bind.
  destruct (truthy (query i)).
  - rewrite run_bind. cbn [lift].
    destruct (re_compile w (query i) true) as [by_product|e]; [|done].
    rewrite run_bind. cbn [lift].
    destruct (re_compile w (query i) false) as [by_code|e]; [|done].
    rewrite run_ret. unfold_M. cbn [ui db net]. by rewrite <- !app_assoc.
  - rewrite run_ret. unfold_M. cbn [ui db net]. by rewrite <- !app_assoc.
Qed.

Lemma data_rows_US_Applied :
  Forall (λ row, cell data "Country" row = "United States"
                 ∧ cell data "Tariff Type" row = "Applied") (df_rows data).
Proof. repeat constructor. Qed.

Lemma selected_rows (i : Inputs) :
  df_rows (selected i)
  = if String.eqb (country i) "United States" && String.eqb (tariff_type i) "Applied"
    then df_rows data else [].
Proof.
  unfold selected, df_filter. cbn [df_rows].
  assert (∀ rows, Forall (λ row, cell data "Country" row = "United States"
                                 ∧ cell data "Tariff Type" row = "Applied") rows →
            List.filter (λ row, String.eqb (cell data "Country" row) (country i) &&
                                String.eqb (cell data "Tariff Type" row) (tariff_type i))
              rows
            = if String.eqb (country i) "United States"
                 && String.eqb (tariff_type i) "Applied"
              then rows else []) as Hrows.
  { induction 1 as [|row rows [Hc Ht] _ IH]; [by case_match |].
    cbn [List.filter]. rewrite Hc, Ht, IH, (String.eqb_sym "United States"),
      (String.eqb_sym "Applied").
    by destruct (_ && _). }
  apply Hrows, data_rows_US_Applied.
Qed.

(** X10. The mock panel raises only when the query is not empty and
    compiling it as a pattern raises, and then it has shown nothing.
    Otherwise it shows one table and the chart.  The table has the columns
    of the mock data and a selection of its rows in their order; it is
    empty unless the country is "United States" and the type is "Applied";
    with an empty query it has all three rows for that selection; with a
    query it has the rows whose product matches without regard to case or
    whose HS code matches. *)
Theorem mock_table_rows (w : World) (i : Inputs) (s : State) :
  (∃ e, mock_section w i s = (Raised e, s)
        ∧ truthy (query i) = true
        ∧ (re_compile w (query i) true = Raised e
           ∨ (∃ by_product, re_compile w (query i) true = Returned by_product)
             ∧ re_compile w (query i) false = Raised e))
  ∨ (∃ f, mock_section w i s
          = (Returned (), {| ui := ui s ++ mock_panel f; db := db s; net := net s |})
          ∧ df_columns f = df_columns data
          ∧ df_rows f `sublist_of` df_rows data
          ∧ (country i ≠ "United States" ∨ tariff_type i ≠ "Applied" → df_rows f = [])
          ∧ (query i = "" → country i = "United States" → tariff_type i = "Applied" →
             f = data)
          ∧ (∀ by_product by_code,
               truthy (query i) = true →
               country i = "United States" → tariff_type i = "Applied" →
               re_compile w (query i) true = Returned by_product →
               re_compile w (query i) false = Returned by_code →
               df_rows f
               = List.filter (λ row, by_product (cell data "Product" row)
                                     || by_code (cell data "HS Code" row))
                   (df_rows data))).
Proof.
  rewrite mock_section_run. unfold mock_filtered.
  assert (country i ≠ "United States" ∨ tariff_type i ≠ "Applied" →
          df_rows (selected i) = []) as Hother.
  { rewrite selected_rows. intros [Hc | Ht].
    - apply String.eqb_neq in Hc. by rewrite Hc.
    - apply String.eqb_neq in Ht. rewrite Ht. by rewrite andb_false_r. }
  assert (country i = "United States" → tariff_type i = "Applied" →
          df_rows (selected i) = df_rows data) as Hsame.
  { rewrite selected_rows. by intros -> ->. }
  assert (df_rows (selected i) `sublist_of` df_rows data) as Hsub
    by apply filter_sublist.
  destruct (truthy (query i)) eqn:Hquery.
  - destruct (re_compile w (query i) true) as [by_product|e] eqn:Hp.
    2: { left. exists e. split; [done |]. split; [done |]. by left. }
    destruct (re_compile w (query i) false) as [by_code|e] eqn:Hc.
    2: { left. exists e. split; [done |]. split; [done |]. right. by split; [eexists |]. }
    right. eexists. split; [reflexivity |]. cbn [df_filter df_columns df_rows].
    split; [done |]. split; [etrans; [apply filter_sublist | done] |].
    split; [intros Hsel; by rewrite (Hother Hsel) |]. split.
    + intros Hempty. by rewrite Hempty in Hquery.
    + intros by_product' by_code' _ Hus Happlied [= <-] [= <-].
      by rewrite (Hsame Hus Happlied).
  - right. exists (selected i). split; [done |]. split; [done |]. split; [done |].
    split; [done |]. split; [|done].
    intros _ Hus Happlied. specialize (Hsame Hus Happlied).
    unfold selected, df_filter in *. cbn [df_rows] in Hsame. by rewrite Hsame.
Qed.

Lemma mock_table_rows_witness :
  mock_section Cases.strict_patterns Cases.open_paren init_state
  = (Raised Cases.bad_pattern, init_state)
  ∧ mock_section Cases.strict_patterns Cases.no_query init_state
    = (Returned (),
       {| ui := mock_panel {| df_columns := df_columns data; df_rows := [] |};
          db := []; net := [] |}).
Proof.
  split.
  - destruct (mock_table_rows Cases.strict_patterns Cases.open_paren init_state)
      as [(e & Hrun & _) | (f & Hrun & _)].
    + rewrite Hrun. vm_compute in Hrun. by injection Hrun as <-.
    + vm_compute in Hrun. discriminate Hrun.
  - destruct (mock_table_rows Cases.strict_patterns Cases.no_query init_state)
      as [(e & _ & Hquery & _) | (f & Hrun & Hcols & _ & Hother & _)];
      [discriminate Hquery |].
    rewrite Hrun. destruct f as [cols rows]. cbn [df_columns df_rows] in Hcols, Hother.
    assert (country Cases.no_query ≠ "United States") as Hchina by (intros [=]).
    by rewrite Hcols, (Hother (or_introl Hchina)).
Defined.

(** ** One run of the script *)

(** The three ways the button ends: not clicked, write refused, entry
    saved. *)
Lemma add_to_watchlist_cases (w : World) (i : Inputs) (s : State) :
  let entry := watchlist_entry i in
  let subject := "New Tariff Watchlist Item Added" in
  ∃ s' more calls,
    add_to_watchlist w i s = (Returned (), s')
    ∧ ui s' = ui s ++ StButton "Add to Watchlist" :: more
    ∧ net s' = net s ++ calls
    ∧ (add_clicked i = false ∧ more = [] ∧ calls = [] ∧ db s' = db s
       ∨ add_clicked i = true
         ∧ (∃ e, (add_fault w = Some e
                  ∨ add_fault w = None ∧ server_new_id w ∈ (doc_id <$> db s))
                 ∧ more = [StError ("Failed to add to watchlist: " +:+ exn_msg e)])
         ∧ calls = [StoreAdd "watchlist" entry]
         ∧ db s' = db s
       ∨ add_clicked i = true
         ∧ add_fault w = None
         ∧ (server_new_id w ∉ (doc_id <$> db s))
         ∧ more = StSuccess "Added to watchlist." ::
                  match alert_error w subject (alert_body i) with
                  | Some e => [StError ("Failed to send email: " +:+ exn_msg e)]
                  | None => []
                  end
         ∧ (∃ session, calls = StoreAdd "watchlist" entry :: session
                       ∧ alert_calls w subject (alert_body i) session)
         ∧ db s' = db s ++ [new_document (server_now w) (server_new_id w) entry]).
Proof.
  cbv zeta. rewrite add_to_watchlist_run. cbv zeta.
  destruct (add_clicked i).
  2: { eexists _, [], []. cbn [ui db net]. rewrite app_nil_r.
       split; [done |]. split; [done |]. split; [done |]. by left. }
  destruct (watchlist_add w (watchlist_entry i) _) as [[[]|e] s1] eqn:Hadd.
  - apply watchlist_add_Returned in Hadd as (Hfault & Hfresh & ->).
    match goal with |- context [send_email_alert w ?a ?b ?s0] =>
      destruct (send_email_alert_total w a b s0) as (s2 & Hsend & Hui & Hdb);
      destruct (send_email_alert_calls w a b s0)
        as (sent & s2' & session & Hsend' & Hnet & Hcalls)
    end.
    rewrite Hsend in Hsend'. injection Hsend' as _ <-.
    rewrite Hsend. cbn [snd ui db net] in *.
    eexists s2, _, _. split; [done |]. rewrite Hui, Hnet, Hdb, <- !app_assoc.
    split; [reflexivity |]. split; [reflexivity |]. right. right.
    split; [done |]. split; [done |]. split; [done |]. split; [done |].
    split; [by eexists | done].
  - apply watchlist_add_Raised in Hadd as (Hfault & ->). cbn [ui db net] in *.
    eexists _, [_], [_]. rewrite <- !app_assoc.
    split; [done |]. split; [reflexivity |]. split; [reflexivity |]. right. left.
    split; [done |]. split; [|done]. exists e. split; [|done].
    destruct Hfault as [? | (? & ? & _)]; [by left | by right].
Qed.

Lemma dashboard_run (w : World) (i : Inputs) (s s1 : State) :
  usitc_section w i s = (Returned (), s1) →
  let fetched :=
    {| ui := ui s1 ++ wto_panel w ++ ustr_panel w; db := db s1;
       net := net s1 ++ [ReadExcel WTO_URL 1 6; HttpGet USTR_REQUEST] |} in
  sources w i s = (Returned (), fetched)
  ∧ dashboard w i s =
      match mock_filtered w i with
      | Raised e => (Raised e, fetched)
      | Returned f =>
          (Returned (),
           {| ui := ui fetched ++ mock_panel f ++ watchlist_panel w (db s1);
              db := db s1;
              net := net fetched ++ [StoreQuery "watchlist" "timestamp"] |})
      end.
Proof.
  intros Husitc. cbv zeta. pose proof (sources_run w i s s1 Husitc) as Hsources.
  split; [done |]. unfold dashboard. rewrite run_bind, Hsources, run_bind.
  rewrite mock_section_run.
  destruct (mock_filtered w i) as [f|e]; [|done].
  rewrite watchlist_section_run. unfold watchlist_panel. cbn [ui db net].
  by rewrite <- !app_assoc.
Qed.

(** X7. A run with an empty query never raises: it skips the USITC
    lookup, shows the WTO panel, the USTR panel, the mock table for the
    selected country and type, the chart and the watchlist, leaves the
    store as it is and makes three calls: the sheet, the USTR page and the
    listing of the store, in this order. *)
Theorem empty_query_run (w : World) (i : Inputs) (s : State) :
  query i = "" →
  dashboard w i s
  = (Returned (),
     {| ui := ui s ++ wto_panel w ++ ustr_panel w ++ mock_panel (selected i)
                   ++ watchlist_panel w (db s);
        db := db s;
        net := net s ++ [ReadExcel WTO_URL 1 6; HttpGet USTR_REQUEST;
                         StoreQuery "watchlist" "timestamp"] |}).
Proof.
  intros Hquery.
  assert (usitc_section w i s = (Returned (), s)) as Husitc.
  { unfold usitc_section. by rewrite Hquery. }
  destruct (dashboard_run w i s s Husitc) as [_ ->].
  unfold mock_filtered. rewrite Hquery. cbn [truthy String.eqb negb ui db net].
  by rewrite <- !app_assoc.
Qed.

Lemma empty_query_run_witness :
  net (dashboard Cases.store_down Cases.no_query init_state).2
  = [ReadExcel WTO_URL 1 6; HttpGet USTR_REQUEST; StoreQuery "watchlist" "timestamp"]
  ∧ (dashboard Cases.store_down Cases.no_query init_state).1 = Returned ().
Proof.
  by rewrite (empty_query_run Cases.store_down Cases.no_query init_state eq_refl).
Defined.

(** X8. A run ends with an exception exactly when the query is not empty
    and compiling it as a pattern for the mock table raises; the exception
    is the one of the compiler, and the run stops in the state the three
    sources left: neither the mock table nor the watchlist is shown and the
    store is not listed. *)
Theorem run_raises_on_bad_pattern (w : World) (i : Inputs) (s : State) (e : Exn) :
  ((dashboard w i s).1 = Raised e
   ↔ truthy (query i) = true
     ∧ (re_compile w (query i) true = Raised e
        ∨ (∃ by_product, re_compile w (query i) true = Returned by_product)
          ∧ re_compile w (query i) false = Raised e))
  ∧ ((dashboard w i s).1 = Raised e →
     dashboard w i s = (Raised e, (sources w i s).2)).
Proof.
  destruct (usitc_section_returns w i s) as ([] & s1 & Husitc).
  destruct (dashboard_run w i s s1 Husitc) as [-> ->]. cbv zeta.
  unfold mock_filtered.
  destruct (truthy (query i)).
  2: { split; [|done]. split; [done | by intros [? _]]. }
  destruct (re_compile w (query i) true) as [by_product|e1].
  - destruct (re_compile w (query i) false) as [by_code|e2]; cbn [fst snd].
    + split; [|done]. split; [done |]. by intros [_ [? | [_ ?]]].
    + split; [|by intros [= ->]]. split.
      * intros [= ->]. split; [done |]. right. by split; [eexists |].
      * by intros [_ [? | [_ [= ->]]]].
  - cbn [fst snd]. split; [|by intros [= ->]]. split.
    + intros [= ->]. by split; [| left].
    + by intros [_ [[= ->] | [[? ?] _]]].
Qed.

Lemma run_raises_on_bad_pattern_witness :
  dashboard Cases.strict_patterns Cases.open_paren init_state
  = (Raised Cases.bad_pattern,
     (sources Cases.strict_patterns Cases.open_paren init_state).2)
  ∧ Forall (λ x, x ≠ Subheader "My Watchlist")
      (ui (dashboard Cases.strict_patterns Cases.open_paren init_state).2).
Proof.
  pose proof (proj2 (run_raises_on_bad_pattern Cases.strict_patterns Cases.open_paren
                        init_state Cases.bad_pattern) eq_refl) as Hrun.
  split; [exact Hrun |]. rewrite Hrun. vm_compute. repeat constructor; discriminate.
Defined.

(** The store after the USITC panel, and so after the run. *)
Lemma usitc_section_store (w : World) (i : Inputs) (s : State) :
  let added := new_document (server_now w) (server_new_id w) (watchlist_entry i) in
  let saved :=
    truthy (query i) = true ∧ country i = "United States" ∧ add_clicked i = true
    ∧ usitc_records w (query i) ≠ [] ∧ add_fault w = None
    ∧ (server_new_id w ∉ (doc_id <$> db s)) in
  ∃ s1, usitc_section w i s = (Returned (), s1)
        ∧ (db s1 = db s ∨ db s1 = db s ++ [added])
        ∧ (saved → db s1 = db s ++ [added])
        ∧ (db s1 ≠ db s → saved).
Proof.
  cbv zeta. rewrite usitc_section_run. cbv zeta.
  destruct (truthy (query i) && String.eqb (country i) "United States") eqn:Hguard.
  2: { exists s. split; [done |]. split; [by left |]. split; [|done].
       intros (Hq & Hc & _). by rewrite Hq, Hc in Hguard. }
  apply andb_true_iff in Hguard as [Hq Hc%String.eqb_eq].
  destruct (df_empty (pd_DataFrame (usitc_records w (query i)))) eqn:Hempty.
  { apply pd_DataFrame_empty in Hempty. eexists. split; [done |]. cbn [db].
    split; [by left |]. split; [|done]. by intros (_ & _ & _ & ? & _). }
  assert (usitc_records w (query i) ≠ []) as Hfull.
  { intros Hnil%pd_DataFrame_empty. congruence. }
  match goal with |- context [add_to_watchlist w i ?s0] =>
    destruct (add_to_watchlist_cases w i s0)
      as (s' & more & calls & Hrun & _ & _ & Hcases)
  end.
  cbn [db] in Hcases. exists s'. split; [done |].
  destruct Hcases as [(Hclick & _ & _ & Hdb)
                     | [(Hclick & (e & Hfault & _) & _ & Hdb)
                       | (Hclick & Hfault & Hfresh & _ & _ & Hdb)]].
  - split; [by left |]. split; [|done]. intros (_ & _ & ? & _). congruence.
  - split; [by left |]. split; [|done]. intros (_ & _ & _ & _ & Hnone & Hid).
    destruct Hfault as [? | [_ ?]]; [congruence | done].
  - split; [by right |]. done.
Qed.

(** X9. A run never removes or rewrites a stored entry: it leaves the
    store as it was or with one more entry at the end, the one of the
    inputs.  The entry is added exactly when the query is not empty, the
    country is "United States", the lookup collected a record, the button
    was clicked, the store accepted the write and the new id was free;
    this holds also when the run ends with an exception. *)
Theorem store_append_only (w : World) (i : Inputs) (s : State) :
  let after := db (dashboard w i s).2 in
  let added := new_document (server_now w) (server_new_id w) (watchlist_entry i) in
  let saved :=
    truthy (query i) = true ∧ country i = "United States" ∧ add_clicked i = true
    ∧ usitc_records w (query i) ≠ [] ∧ add_fault w = None
    ∧ (server_new_id w ∉ (doc_id <$> db s)) in
  (after = db s ∨ after = db s ++ [added])
  ∧ (saved → after = db s ++ [added])
  ∧ (after ≠ db s → saved).
Proof.
  cbv zeta. destruct (usitc_section_store w i s) as (s1 & Husitc & Hstore).
  destruct (dashboard_run w i s s1 Husitc) as [_ ->]. cbv zeta.
  by destruct (mock_filtered w i).
Qed.

Lemma store_append_only_witness :
  length (db (dashboard Fixture.first_run Fixture.green_tea init_state).2) = 1%nat
  ∧ db (dashboard Fixture.first_run Cases.not_clicked init_state).2 = [].
Proof.
  split.
  - destruct (store_append_only Fixture.first_run Fixture.green_tea init_state)
      as (_ & Hsaved & _).
    rewrite Hsaved; [reflexivity |].
    split; [reflexivity |]. split; [reflexivity |]. split; [reflexivity |].
    split; [by vm_compute |]. split; [reflexivity |].
    vm_compute. by intros ?%not_elem_of_nil.
  - destruct (store_append_only Fixture.first_run Cases.not_clicked init_state)
      as ([Hsame | Hadded] & _ & Hchanged); [exact Hsame |].
    assert (db (dashboard Fixture.first_run Cases.not_clicked init_state).2
            ≠ db init_state) as Hne.
    { rewrite Hadded. intros Heq. apply (f_equal length) in Heq.
      rewrite length_app in Heq. cbn [length] in Heq. lia. }
    destruct (Hchanged Hne) as (_ & _ & Hclick & _). discriminate Hclick.
Defined.

(** ** The watchlist panel *)

(** X11. The watchlist panel never raises, never changes the store and
    lists it once.  When listing raised it shows the error with the text
    of the exception.  Otherwise it shows the "no items" note when no
    stored document has a "timestamp", and else a table, never an empty
    one, with one row for each stored document that has a "timestamp",
    each row read from such a document. *)
Theorem watchlist_panel_total (w : World) (s : State) :
  watchlist_section w s
  = (Returned (),
     {| ui := ui s ++ watchlist_panel w (db s); db := db s;
        net := net s ++ [StoreQuery "watchlist" "timestamp"] |})
  ∧ (∀ e, query_fault w = Some e →
          watchlist_panel w (db s)
          = [Subheader "My Watchlist";
             StError ("Error fetching watchlist: " +:+ exn_msg e)])
  ∧ (query_fault w = None →
     (Forall (λ d, doc_fields d !! "timestamp" = None) (db s) →
      watchlist_panel w (db s)
      = [Subheader "My Watchlist"; StInfo "No items in your watchlist yet."])
     ∧ (¬ Forall (λ d, doc_fields d !! "timestamp" = None) (db s) →
        ∃ rows, watchlist_panel w (db s) = [Subheader "My Watchlist"; StTable rows]
                ∧ rows ≠ []
                ∧ length rows
                  = length (List.filter
                              (λ d, bool_decide (is_Some (doc_fields d !! "timestamp")))
                              (db s))
                ∧ Forall (λ row, ∃ d, d ∈ db s
                                      ∧ is_Some (doc_fields d !! "timestamp")
                                      ∧ row = watch_row d) rows)).
Proof.
  split; [by rewrite watchlist_section_run |].
  unfold watchlist_panel. split; [by intros e -> |]. intros ->.
  pose proof (order_by_desc_filter "timestamp" (db s)) as Hperm.
  assert (Forall (λ d, doc_fields d !! "timestamp" = None) (db s)
          ↔ order_by_desc "timestamp" (db s) = []) as Hnone.
  { split.
    - intros Hall. apply Permutation_nil. rewrite Hperm.
      clear Hperm. induction Hall as [|d c Hd _ IH]; [done |].
      cbn [List.filter]. by rewrite Hd.
    - intros Hnil. rewrite Hnil in Hperm. apply Permutation_nil in Hperm.
      revert Hperm. generalize (db s). intros c.
      induction c as [|d c IH]; intros Hperm; [done |]. cbn [List.filter] in Hperm.
      case_bool_decide as Hd; [done |]. constructor; [|by apply IH].
      by apply eq_None_not_Some. }
  split.
  - intros Hall. by rewrite (proj1 Hnone Hall).
  - intros Hsome. destruct (order_by_desc "timestamp" (db s)) as [|d docs] eqn:Hdocs.
    { by destruct Hsome; apply Hnone. }
    eexists. split; [reflexivity |]. split; [done |].
    rewrite length_fmap, <- Hperm. split; [done |].
    apply Forall_fmap, Forall_forall. intros d' Hd'. exists d'.
    rewrite <- Hdocs in Hd'. by apply order_by_desc_elem in Hd' as [? ?].
Qed.

Lemma watchlist_panel_total_witness :
  watchlist_panel Cases.store_down (db Fixture.saved_twice)
  = [Subheader "My Watchlist";
     StError "Error fetching watchlist: 503 store unavailable"]
  ∧ watchlist_panel Fixture.first_run [new_document 0 "stray" ∅]
    = [Subheader "My Watchlist"; StInfo "No items in your watchlist yet."].
Proof.
  split.
  - exact (proj1 (proj2 (watchlist_panel_total Cases.store_down Fixture.saved_twice))
             Cases.unavailable eq_refl).
  - apply (proj1 (proj2 (proj2 (watchlist_panel_total Fixture.first_run
                                  {| ui := []; db := [new_document 0 "stray" ∅];
                                     net := [] |})) eq_refl)).
    by repeat constructor.
Defined.

(** X12. Saving and listing in one run: when the search is saved in this
    run, the query compiles as a pattern, the store can be listed and the
    time the store gives the new entry is later than the time of every
    entry it holds, the run ends normally with the watchlist table as the
    last thing on the page, the search of the inputs in its first row and
    the entries stored before in the rows after it. *)
Theorem saved_entry_listed_first (w : World) (i : Inputs) (s : State)
    (by_product by_code : string → bool) :
  truthy (query i) = true →
  country i = "United States" →
  add_clicked i = true →
  usitc_records w (query i) ≠ [] →
  add_fault w = None →
  server_new_id w ∉ (doc_id <$> db s) →
  Forall (λ d, ∃ t, createdAt d = Some t ∧ t < server_now w) (db s) →
  re_compile w (query i) true = Returned by_product →
  re_compile w (query i) false = Returned by_code →
  query_fault w = None →
  ∃ s' before older,
    dashboard w i s = (Returned (), s')
    ∧ ui s' = before ++ [Subheader "My Watchlist";
                         StTable (input_row i :: (watch_row <$> older))]
    ∧ older ≡ₚ db s
    ∧ db s' = db s ++ [new_document (server_now w) (server_new_id w) (watchlist_entry i)].
Proof.
  intros Hquery Hcountry Hclick Hrecords Hfault Hfresh Holder Hp Hc Hlist.
  destruct (usitc_section_store w i s) as (s1 & Husitc & _ & Hsaved & _).
  specialize (Hsaved (conj Hquery (conj Hcountry (conj Hclick
                        (conj Hrecords (conj Hfault Hfresh)))))).
  destruct (dashboard_run w i s s1 Husitc) as [_ Hrun]. cbv zeta in Hrun.
  unfold mock_filtered in Hrun. rewrite Hquery, Hp, Hc in Hrun.
  destruct (newest_is_first (db s) _ _
              (new_document_createdAt (server_now w) (server_new_id w) i) Holder)
    as [older Hfirst].
  eexists _, (ui s1 ++ wto_panel w ++ ustr_panel w ++ mock_panel _), older.
  split; [exact Hrun |]. cbn [ui db]. split; [|split; [|done]].
  - unfold watchlist_panel. rewrite Hlist, Hsaved, Hfirst.
    cbn [fmap list_fmap]. rewrite new_document_row, <- !app_assoc.
    reflexivity.
  - assert (dated (db s ++ [new_document (server_now w) (server_new_id w)
                              (watchlist_entry i)])) as Hdated.
    { apply Forall_app. split.
      - eapply Forall_impl; [exact Holder |]. by intros d (t & -> & _).
      - repeat constructor. rewrite new_document_createdAt. by eexists. }
    pose proof (order_by_desc_all _ Hdated) as Hperm. rewrite Hfirst in Hperm.
    rewrite <- Permutation_cons_append in Hperm.
    by apply Permutation_cons_inv in Hperm.
Qed.

Lemma saved_entry_listed_first_witness :
  ∃ before,
    ui (dashboard Fixture.second_run Fixture.green_tea Fixture.saved_once).2
    = before ++ [Subheader "My Watchlist";
                 StTable [Fixture.green_tea_row; Fixture.green_tea_row]].
Proof.
  assert (db Fixture.saved_once
          = [new_document 100 "doc1" (watchlist_entry Fixture.green_tea)]) as Hstore
    by (vm_compute; reflexivity).
  assert (usitc_records Fixture.second_run "0902.10" ≠ []) as Hrecords
    by (vm_compute; discriminate).
  assert (server_new_id Fixture.second_run ∉ (doc_id <$> db Fixture.saved_once))
    as Hfresh.
  { rewrite Hstore. intros Hin%list_elem_of_singleton. discriminate Hin. }
  assert (Forall (λ d, ∃ t, createdAt d = Some t ∧ t < server_now Fixture.second_run)
            (db Fixture.saved_once)) as Holder.
  { rewrite Hstore. repeat constructor. exists 100.
    split; [apply new_document_createdAt | reflexivity]. }
  destruct (saved_entry_listed_first Fixture.second_run Fixture.green_tea
              Fixture.saved_once (String.eqb "0902.10") (String.eqb "0902.10")
              eq_refl eq_refl eq_refl Hrecords eq_refl Hfresh Holder
              eq_refl eq_refl eq_refl)
    as (s' & before & older & Hrun & Hui & Hperm & _).
  exists before. rewrite Hrun. cbn [snd]. rewrite Hui.
  rewrite Hstore in Hperm. apply Permutation_singleton_r in Hperm as ->.
  cbn [fmap list_fmap]. rewrite new_document_row. reflexivity.
Defined.

(** X13. The calls of a run come in one order and none is repeated: at
    most one USITC request, then at most one write to the store followed
    by the calls of the alert, which are the first steps of one session
    and the QUIT that ends it once STARTTLS was called, then the sheet,
    then the USTR page, then the listing of the store, which is left out
    exactly when the run ends with an exception. *)
Theorem run_makes_each_call_once (w : World) (i : Inputs) (s : State) :
  ∃ lookup listing,
    net (dashboard w i s).2
    = net s ++ lookup ++ [ReadExcel WTO_URL 1 6; HttpGet USTR_REQUEST] ++ listing
    ∧ (lookup = []
       ∨ ∃ save, lookup = HttpGet (USITC_REQUEST (query i)) :: save
                 ∧ (save = []
                    ∨ ∃ session,
                        save = StoreAdd "watchlist" (watchlist_entry i) :: session
                        ∧ alert_calls w "New Tariff Watchlist Item Added"
                            (alert_body i) session))
    ∧ (listing = [StoreQuery "watchlist" "timestamp"]
       ∧ (dashboard w i s).1 = Returned ()
       ∨ listing = [] ∧ ∃ e, (dashboard w i s).1 = Raised e).
Proof.
  assert (∃ s1 lookup,
            usitc_section w i s = (Returned (), s1)
            ∧ net s1 = net s ++ lookup
            ∧ (lookup = []
               ∨ ∃ save, lookup = HttpGet (USITC_REQUEST (query i)) :: save
                         ∧ (save = []
                            ∨ ∃ session,
                                save = StoreAdd "watchlist" (watchlist_entry i) :: session
                                ∧ alert_calls w "New Tariff Watchlist Item Added"
                                    (alert_body i) session)))
    as (s1 & lookup & Husitc & Hnet & Hlookup).
  { rewrite usitc_section_run. cbv zeta.
    destruct (truthy (query i) && String.eqb (country i) "United States").
    2: { exists s, []. rewrite app_nil_r. split; [done |]. split; [done |]. by left. }
    destruct (df_empty (pd_DataFrame (usitc_records w (query i)))).
    { eexists _, [_]. split; [done |]. split; [done |]. right. eexists. split; [done |].
      by left. }
    match goal with |- context [add_to_watchlist w i ?s0] =>
      destruct (add_to_watchlist_effect w i s0)
        as (s' & more & calls & Hrun & _ & _ & Hnet & Hcalls & _)
    end.
    cbn [net] in Hnet. exists s', (HttpGet (USITC_REQUEST (query i)) :: calls).
    split; [done |]. split; [by rewrite Hnet, <- app_assoc |].
    right. exists calls. split; [done |].
    destruct Hcalls as [-> | (session & -> & Hprefix)]; [by left |].
    right. by exists session. }
  destruct (dashboard_run w i s s1 Husitc) as [_ ->]. cbv zeta.
  destruct (mock_filtered w i) as [f|e]; cbn [fst snd net].
  - exists lookup, [StoreQuery "watchlist" "timestamp"].
    rewrite Hnet, <- !app_assoc. split; [done |]. split; [done |]. by left.
  - exists lookup, []. rewrite Hnet, <- !app_assoc. split; [done |]. split; [done |].
    right. split; [done |]. by exists e.
Qed.

Lemma run_makes_each_call_once_witness :
  ∃ lookup,
    net (dashboard Fixture.no_mail Fixture.green_tea init_state).2
    = lookup ++ [ReadExcel WTO_URL 1 6; HttpGet USTR_REQUEST;
                 StoreQuery "watchlist" "timestamp"]
    ∧ net (dashboard Fixture.no_mail Fixture.green_tea init_state).2
      = [HttpGet (USITC_REQUEST "0902.10");
         StoreAdd "watchlist" (watchlist_entry Fixture.green_tea);
         SmtpConnect "smtp.sendgrid.net" 587 None;
         ReadExcel WTO_URL 1 6; HttpGet USTR_REQUEST;
         StoreQuery "watchlist" "timestamp"].
Proof.
  destruct (run_makes_each_call_once Fixture.no_mail Fixture.green_tea init_state)
    as (lookup & listing & Hnet & _ & Hlisting).
  exists lookup. split; [|by vm_compute].
  destruct Hlisting as [[-> _] | [_ [e He]]]; [exact Hnet |].
  vm_compute in He. discriminate He.
Defined.

(** X14. A run keeps the entries of the store complete: when every stored
    entry has a [createdAt] before the run, every stored entry has one
    after it, and an entry that was not there before carries the search of
    the inputs and the time of the store's clock. *)
Theorem run_keeps_entries_dated (w : World) (i : Inputs) (s : State) :
  dated (db s) →
  dated (db (dashboard w i s).2)
  ∧ Forall (λ d, d ∈ db s
                 ∨ watch_row d = input_row i ∧ createdAt d = Some (server_now w))
      (db (dashboard w i s).2).
Proof.
  intros Hdated. split; [by apply dashboard_keeps_dated |].
  destruct (usitc_section_store w i s) as (s1 & Husitc & Hstore & _).
  destruct (dashboard_run w i s s1 Husitc) as [_ ->]. cbv zeta.
  assert (Forall (λ d, d ∈ db s
                       ∨ watch_row d = input_row i ∧ createdAt d = Some (server_now w))
            (db s1)) as Hs1.
  { destruct Hstore as [-> | ->].
    - apply Forall_forall. by left.
    - apply Forall_app. split; [apply Forall_forall; by left |].
      apply Forall_cons. split; [|constructor]. right.
      by rewrite new_document_row, new_document_createdAt. }
  by destruct (mock_filtered w i).
Qed.

Lemma run_keeps_entries_dated_witness :
  dated (db (dashboard Fixture.second_run Fixture.green_tea Fixture.saved_once).2)
  ∧ length (db (dashboard Fixture.second_run Fixture.green_tea Fixture.saved_once).2)
    = 2%nat.
Proof.
  assert (dated (db Fixture.saved_once)) as Hdated.
  { vm_compute. repeat constructor. by eexists. }
  split.
  - exact (proj1 (run_keeps_entries_dated Fixture.second_run Fixture.green_tea
                    Fixture.saved_once Hdated)).
  - by vm_compute.
Defined.
